(** * Gasmon: a shallow embedding of [gasmon.js]

    Gasmon polls Eth Gas Station, keeps a four-entry table of gas prices
    (one entry per speed: safeLow, average, fast, fastest), a currently
    selected speed, and an optimisation flag.  This file embeds the
    module's variables as a record, its functions as computations in a
    state-and-exception monad, and proves the properties of the
    specification against that embedding. *)

From Stdlib Require Import ZArith QArith Qreduction Qround Lqa Lia Bool String.
From Stdlib Require Qcanon.
From stdpp Require Import base list.

Local Open Scope Z_scope.

(** ** JavaScript numbers

    A JavaScript number is NaN, an infinity or a finite value.  Finite
    values are idealised as exact rationals: rounding to binary64 and the
    sign of zero are not modelled, everything else (NaN propagation, the
    comparisons that are false on NaN, truthiness, the remainder that takes
    the sign of the dividend) follows ECMAScript.  Arithmetic results are
    kept in lowest terms. *)

Inductive number : Type :=
| NaN
| Inf (negative : bool)
| Fin (q : Q).

(** An integer literal of the source. *)
Definition num (z : Z) : number := Fin (inject_Z z).

Definition Qsign_neg (q : Q) : bool := (Qnum q <? 0)%Z.
Definition Qis_zero (q : Q) : bool := (Qnum q =? 0)%Z.

(** [x + y] *)
Definition num_add (x y : number) : number :=
  match x, y with
  | NaN, _ | _, NaN => NaN
  | Inf a, Inf b => if Bool.eqb a b then Inf a else NaN
  | Inf a, Fin _ => Inf a
  | Fin _, Inf b => Inf b
  | Fin p, Fin q => Fin (Qred (p + q))
  end.

(** [x - y] *)
Definition num_sub (x y : number) : number :=
  match x, y with
  | NaN, _ | _, NaN => NaN
  | Inf a, Inf b => if Bool.eqb a b then NaN else Inf a
  | Inf a, Fin _ => Inf a
  | Fin _, Inf b => Inf (negb b)
  | Fin p, Fin q => Fin (Qred (p - q))
  end.

(** [x * y] *)
Definition num_mul (x y : number) : number :=
  match x, y with
  | NaN, _ | _, NaN => NaN
  | Inf a, Inf b => Inf (xorb a b)
  | Inf a, Fin q | Fin q, Inf a =>
      if Qis_zero q then NaN else Inf (xorb a (Qsign_neg q))
  | Fin p, Fin q => Fin (Qred (p * q))
  end.

(** [x / y] *)
Definition num_div (x y : number) : number :=
  match x, y with
  | NaN, _ | _, NaN => NaN
  | Inf _, Inf _ => NaN
  | Inf a, Fin q => Inf (xorb a (Qsign_neg q))
  | Fin _, Inf _ => Fin 0
  | Fin p, Fin q =>
      if Qis_zero q
      then (if Qis_zero p then NaN else Inf (Qsign_neg p))
      else Fin (Qred (p / q))
  end.

(** Rounding towards zero, as the remainder needs it. *)
Definition Qtrunc (q : Q) : Z := Z.quot (Qnum q) (Zpos (Qden q)).

(** [x % y]: the result has the sign of the dividend. *)
Definition num_rem (x y : number) : number :=
  match x, y with
  | NaN, _ | _, NaN => NaN
  | Inf _, _ => NaN
  | Fin p, Inf _ => Fin p
  | Fin p, Fin q =>
      if Qis_zero q then NaN
      else Fin (Qred (p - q * inject_Z (Qtrunc (p / q))))
  end.

(** [x < y]; false as soon as one side is NaN. *)
Definition num_ltb (x y : number) : bool :=
  match x, y with
  | NaN, _ | _, NaN => false
  | Inf a, Inf b => a && negb b
  | Inf a, Fin _ => a
  | Fin _, Inf b => negb b
  | Fin p, Fin q => negb (Qle_bool q p)
  end.

(** [x > y] *)
Definition num_gtb (x y : number) : bool := num_ltb y x.

(** [x == y] on numbers; NaN is equal to nothing. *)
Definition num_eqb (x y : number) : bool :=
  match x, y with
  | NaN, _ | _, NaN => false
  | Inf a, Inf b => Bool.eqb a b
  | Inf _, Fin _ | Fin _, Inf _ => false
  | Fin p, Fin q => Qeq_bool p q
  end.

(** [x != y] *)
Definition num_neb (x y : number) : bool := negb (num_eqb x y).

(** ToBoolean on a number: NaN and zero are falsy. *)
Definition truthy (x : number) : bool :=
  match x with
  | NaN => false
  | Inf _ => true
  | Fin q => negb (Qis_zero q)
  end.

Declare Scope num_scope.
Delimit Scope num_scope with num.
Bind Scope num_scope with number.
Infix "+" := num_add : num_scope.
Infix "-" := num_sub : num_scope.
Infix "*" := num_mul : num_scope.
Infix "/" := num_div : num_scope.
Infix "mod" := num_rem : num_scope.
Infix "<?" := num_ltb : num_scope.
Infix ">?" := num_gtb (at level 70) : num_scope.
Infix "==" := num_eqb (at level 70) : num_scope.
Infix "!=" := num_neb (at level 70) : num_scope.

(** ** Data of the module *)

(** An entry of the price table: [{ gwei: ..., wait: ... }]. *)
Record speed_entry : Type := { gwei : number; wait : number }.

(** The body of a station response.  The eight fields the module reads
    are named; the others are carried along untouched. *)
Record response : Type := {
  safeLow : number;
  average : number;
  fast : number;
  fastest : number;
  safeLowWait : number;
  avgWait : number;
  fastWait : number;
  fastestWait : number;
  passthrough : list (string * number)
}.

(** A function of the host application, known by a handle. *)
Definition callback : Type := nat.

Inductive message : Type :=
| MsgInitializing
| MsgNewSpeedLimits (g1 g2 g3 g4 : number)
| MsgDefaultSpeedSet (speed : number)
| MsgOptimized (flag : bool).

(** What the module does to the outside world. *)
Inductive event : Type :=
| ConsoleLog (m : message)
| HttpGet (url : string)
| SetInterval (milliseconds : number)
| Call (f : callback) (args : list number).

Inductive exn : Type := TypeError.

(** The module-level variables, and the effects performed so far (oldest
    first).  A slot of the array [_speeds] holds an entry or is
    [undefined] ([None]). *)
Record state : Type := {
  _speeds : list (option speed_entry);
  _currentSpeed : number;
  _onNewSpeedCallback : option callback;
  _suppressLogs : bool;
  _optimized : bool;
  _details : option response;
  effects : list event
}.

Definition defaultIntervalInMinutes : number := num 3.
Definition defaultSpeed : number := num 2.
Definition gasStationUrl : string :=
  "https://ethgasstation.info/json/ethgasAPI.json"%string.

(** The state right after the module is loaded. *)
Definition initial_state : state := {|
  _speeds := [ Some {| gwei := num 1; wait := Fin (71 # 10) |};
               Some {| gwei := num 5; wait := Fin (7 # 2) |};
               Some {| gwei := num 10; wait := Fin (1 # 2) |};
               Some {| gwei := num 20; wait := Fin (1 # 2) |} ];
  _currentSpeed := defaultSpeed;
  _onNewSpeedCallback := None;
  _suppressLogs := false;
  _optimized := true;
  _details := None;
  effects := []
|}.

Definition set_speeds (v : list (option speed_entry)) (s : state) : state :=
  {| _speeds := v; _currentSpeed := _currentSpeed s;
     _onNewSpeedCallback := _onNewSpeedCallback s;
     _suppressLogs := _suppressLogs s; _optimized := _optimized s;
     _details := _details s; effects := effects s |}.

Definition set_currentSpeed (v : number) (s : state) : state :=
  {| _speeds := _speeds s; _currentSpeed := v;
     _onNewSpeedCallback := _onNewSpeedCallback s;
     _suppressLogs := _suppressLogs s; _optimized := _optimized s;
     _details := _details s; effects := effects s |}.

Definition set_onNewSpeedCallback (v : option callback) (s : state) : state :=
  {| _speeds := _speeds s; _currentSpeed := _currentSpeed s;
     _onNewSpeedCallback := v;
     _suppressLogs := _suppressLogs s; _optimized := _optimized s;
     _details := _details s; effects := effects s |}.

Definition set_suppressLogs (v : bool) (s : state) : state :=
  {| _speeds := _speeds s; _currentSpeed := _currentSpeed s;
     _onNewSpeedCallback := _onNewSpeedCallback s;
     _suppressLogs := v; _optimized := _optimized s;
     _details := _details s; effects := effects s |}.

Definition set_optimized (v : bool) (s : state) : state :=
  {| _speeds := _speeds s; _currentSpeed := _currentSpeed s;
     _onNewSpeedCallback := _onNewSpeedCallback s;
     _suppressLogs := _suppressLogs s; _optimized := v;
     _details := _details s; effects := effects s |}.

Definition set_details (v : option response) (s : state) : state :=
  {| _speeds := _speeds s; _currentSpeed := _currentSpeed s;
     _onNewSpeedCallback := _onNewSpeedCallback s;
     _suppressLogs := _suppressLogs s; _optimized := _optimized s;
     _details := v; effects := effects s |}.

Definition add_effect (e : event) (s : state) : state :=
  {| _speeds := _speeds s; _currentSpeed := _currentSpeed s;
     _onNewSpeedCallback := _onNewSpeedCallback s;
     _suppressLogs := _suppressLogs s; _optimized := _optimized s;
     _details := _details s; effects := effects s ++ [e] |}.

(** ** JavaScript arrays *)

(** The index a number denotes as a property key of an array, if any:
    a non-negative integer. *)
Definition array_index (k : number) : option nat :=
  match k with
  | Fin q =>
      let r := Qred q in
      if (Qden r =? 1)%positive && (0 <=? Qnum r)%Z
      then Some (Z.to_nat (Qnum r))
      else None
  | _ => None
  end.

(** [arr[k]]: [undefined] for a key that is no index of the array. *)
Definition array_get {A : Type} (arr : list (option A)) (k : number) : option A :=
  match array_index k with
  | Some i => mjoin (arr !! i)
  | None => None
  end.

(** [arr[i] = x]: an assignment past the end extends the array, leaving
    holes in between. *)
Definition array_set {A : Type} (i : nat) (x : A) (arr : list (option A))
  : list (option A) :=
  if decide (i < length arr)%nat
  then <[i := Some x]> arr
  else arr ++ replicate (i - length arr) None ++ [Some x].

(** ** Computations: state and exceptions *)

Inductive completion (A : Type) : Type :=
| Normal (a : A)
| Throw (e : exn).
Arguments Normal {A} a.
Arguments Throw {A} e.

Definition M (A : Type) : Type := state → completion A * state.

#[global] Instance M_ret : MRet M := λ A a s, (Normal a, s).
#[global] Instance M_bind : MBind M := λ A B f m s,
  match m s with
  | (Normal a, s') => f a s'
  | (Throw e, s') => (Throw e, s')
  end.

Definition get_state : M state := λ s, (Normal s, s).
Definition modify (f : state → state) : M unit := λ s, (Normal tt, f s).
Definition throw {A : Type} (e : exn) : M A := λ s, (Throw e, s).
Definition perform (e : event) : M unit := modify (add_effect e).
Definition skip : M unit := mret tt.

(** [if(!_suppressLogs) console.log(m)] *)
Definition log (m : message) : M unit :=
  s ← get_state;
  if negb (_suppressLogs s) then perform (ConsoleLog m) else skip.

(** [_speeds[k]] followed by a member access: a [TypeError] on
    [undefined]. *)
Definition speeds_at (k : number) : M speed_entry :=
  s ← get_state;
  match array_get (_speeds s) k with
  | Some e => mret e
  | None => throw TypeError
  end.

(** [a || b] with the right operand evaluated only when needed. *)
Definition orM (a b : M bool) : M bool :=
  x ← a; if x : bool then mret true else b.

(** ** The functions of [gasmon.js] *)

(** Issues the request; the answer arrives later, through
    [estimateGasCost_callback]. *)
Definition estimateGasCost : M unit :=
  perform (HttpGet gasStationUrl).

Definition init (onNewSpeedsFunction : option callback)
    (checkIntervalInMinutes : option number) (suppressLogs : bool) : M unit :=
  modify (set_suppressLogs suppressLogs);;
  log MsgInitializing;;
  modify (set_onNewSpeedCallback onNewSpeedsFunction);;
  estimateGasCost;;
  let interval :=
    match checkIntervalInMinutes with
    | Some n => if truthy n then n else defaultIntervalInMinutes
    | None => defaultIntervalInMinutes
    end in
  perform (SetInterval (num 1000 * num 60 * interval)%num).

(** The four entries derived from a response. *)
Definition newSpeeds (r : response)
  : speed_entry * speed_entry * speed_entry * speed_entry :=
  let newSpeed1 := {| gwei := (safeLow r / num 10)%num; wait := safeLowWait r |} in
  let newSpeed2 := {| gwei := (average r / num 10)%num; wait := avgWait r |} in
  let newSpeed3 := {| gwei := (fast r / num 10)%num; wait := fastWait r |} in
  let newSpeed4 := {| gwei := (fastest r / num 10)%num; wait := fastestWait r |} in
  (newSpeed1, newSpeed2, newSpeed3, newSpeed4).

(** [if(_optimized) { if(newSpeed4.wait == newSpeed3.wait) newSpeed4 = newSpeed3; }]
    The module never assigns to a field of an entry, so that the third and
    fourth slots then holding one object is not visible to its functions. *)
Definition optimize (optimized : bool)
    (new : speed_entry * speed_entry * speed_entry * speed_entry)
  : speed_entry * speed_entry * speed_entry * speed_entry :=
  let '(newSpeed1, newSpeed2, newSpeed3, newSpeed4) := new in
  if optimized
  then (if (wait newSpeed4 == wait newSpeed3)%num
        then (newSpeed1, newSpeed2, newSpeed3, newSpeed3)
        else new)
  else new.

(** [_speeds[i].gwei != g] *)
Definition gwei_differs (i : Z) (g : number) : M bool :=
  e ← speeds_at (num i); mret (gwei e != g)%num.

Definition onGasPricesReceived (r : response) : M unit :=
  modify (set_details (Some r));;
  s ← get_state;
  let '(newSpeed1, newSpeed2, newSpeed3, newSpeed4) :=
    optimize (_optimized s) (newSpeeds r) in
  changed ← orM (gwei_differs 0 (gwei newSpeed1))
           (orM (gwei_differs 1 (gwei newSpeed2))
           (orM (gwei_differs 2 (gwei newSpeed3))
                (gwei_differs 3 (gwei newSpeed4))));
  if changed : bool then
    log (MsgNewSpeedLimits (gwei newSpeed1) (gwei newSpeed2)
                           (gwei newSpeed3) (gwei newSpeed4));;
    modify (λ s, set_speeds (array_set 0 newSpeed1 (_speeds s)) s);;
    modify (λ s, set_speeds (array_set 1 newSpeed2 (_speeds s)) s);;
    modify (λ s, set_speeds (array_set 2 newSpeed3 (_speeds s)) s);;
    modify (λ s, set_speeds (array_set 3 newSpeed4 (_speeds s)) s);;
    s ← get_state;
    match _onNewSpeedCallback s with
    | Some f => perform (Call f [])
    | None => skip
    end
  else skip.

(** The function handed to [$.get]: it runs when the request succeeded,
    with the body and the status text. *)
Definition estimateGasCost_callback (data : response) (status : string) : M unit :=
  if String.eqb status "success" then onGasPricesReceived data else skip.

Definition currentSpeed : M number :=
  s ← get_state; mret (_currentSpeed s).

Definition currentWait : M number :=
  s ← get_state;
  e ← speeds_at (_currentSpeed s - num 1)%num;
  mret (wait e).

(** [speed] is [None] when the argument is omitted. *)
Definition idealGasPriceInGwei (speed : option number) : M number :=
  s ← get_state;
  let speed :=
    match speed with
    | Some t => if negb (truthy t) then _currentSpeed s else t
    | None => _currentSpeed s
    end in
  e ← speeds_at (speed - num 1)%num;
  mret (gwei e).

Definition idealGasPrice (speed : option number) : M number :=
  g ← idealGasPriceInGwei speed;
  mret (g * num 1000000000)%num.

Definition setSpeed (speed : number) : M bool :=
  if (speed <? num 1)%num || (speed >? num 4)%num then mret false
  else
    modify (set_currentSpeed speed);;
    s ← get_state;
    log (MsgDefaultSpeedSet (_currentSpeed s));;
    mret true.

Definition nextSpeed : M number :=
  s ← get_state;
  let nextIndex := ((_currentSpeed s + num 1) mod num 4)%num in
  setSpeed nextIndex;;
  s ← get_state;
  mret (_currentSpeed s).

Definition speeds : M (list (option speed_entry)) :=
  s ← get_state; mret (_speeds s).

Definition optimized (trueOrFalse : bool) : M unit :=
  modify (set_optimized trueOrFalse);;
  s ← get_state;
  log (MsgOptimized (_optimized s)).

Definition details : M (option response) :=
  s ← get_state; mret (_details s).

(** ** The module as a transition system *)

(** What can happen to a loaded module: a call of one of the functions it
    exports, a tick of the timer set up by [init], or the end of a
    request.  A request that failed never reaches the function given to
    [$.get].  A host function invoked by the module runs last in
    [onGasPricesReceived]; what it calls in turn shows as the operations
    that follow. *)
Inductive operation : Type :=
| CallInit (f : option callback) (minutes : option number) (suppress : bool)
| CallCurrentSpeed
| CallIdealGasPrice (speed : option number)
| CallIdealGasPriceInGwei (speed : option number)
| CallNextSpeed
| CallSetSpeed (speed : number)
| CallSpeeds
| CallOptimized (flag : bool)
| CallDetails
| TimerTick
| RequestAnswered (data : response) (status : string)
| RequestFailed.

(** The state a computation leaves behind, whether it returns or throws. *)
Definition after {A : Type} (m : M A) (s : state) : state := (m s).2.

Definition step (o : operation) (s : state) : state :=
  match o with
  | CallInit f minutes suppress => after (init f minutes suppress) s
  | CallCurrentSpeed => after currentSpeed s
  | CallIdealGasPrice speed => after (idealGasPrice speed) s
  | CallIdealGasPriceInGwei speed => after (idealGasPriceInGwei speed) s
  | CallNextSpeed => after nextSpeed s
  | CallSetSpeed speed => after (setSpeed speed) s
  | CallSpeeds => after speeds s
  | CallOptimized flag => after (optimized flag) s
  | CallDetails => after details s
  | TimerTick => after estimateGasCost s
  | RequestAnswered data status => after (estimateGasCost_callback data status) s
  | RequestFailed => s
  end.

Definition run (ops : list operation) (s : state) : state :=
  foldl (λ s o, step o s) s ops.

Definition reachable (s : state) : Prop :=
  ∃ ops, s = run ops initial_state.

(** ** The earlier five-slot variant

    The repository also holds the variant of the module whose table is a
    five-slot array with an unused slot 0.  Its [nextSpeed] differs from
    the one above; [setSpeed] is the same function. *)
Module Legacy.

Definition nextSpeed : M number :=
  s ← get_state;
  let nextIndex := ((_currentSpeed s + num 1) mod num 5)%num in
  let nextIndex := if (nextIndex == num 0)%num then num 1 else nextIndex in
  setSpeed nextIndex;;
  s ← get_state;
  mret (_currentSpeed s).

End Legacy.

(** ** The five-slot variant in full

    The variant keeps plain prices, rounded up to whole gwei, in an array
    [_speed] whose slot 0 is unused; it has no waiting times, no
    optimization and no [details].  None of its functions can throw: a
    missing slot reads as [undefined] ([None]). *)

(** [Math.ceil(x)] *)
Definition num_ceil (x : number) : number :=
  match x with
  | Fin q => Fin (inject_Z (Qceiling q))
  | _ => x
  end.

(** ToNumber on a number or [undefined]. *)
Definition to_number (v : option number) : number := default NaN v.

(** [v != x] for [v] a number or [undefined], [x] a number. *)
Definition value_neb (v : option number) (x : number) : bool :=
  match v with
  | Some y => (y != x)%num
  | None => true
  end.

Module FiveSlot.

Record state : Type := {
  _speed : list (option number);
  _currentSpeed : number;
  _onNewSpeedCallback : option callback;
  _suppressLogs : bool;
  effects : list event
}.

Definition initial_state : state := {|
  _speed := [Some (num 0); Some (num 1); Some (num 5); Some (num 10); Some (num 20)];
  _currentSpeed := defaultSpeed;
  _onNewSpeedCallback := None;
  _suppressLogs := false;
  effects := []
|}.

Definition set_speed (v : list (option number)) (s : state) : state :=
  {| _speed := v; _currentSpeed := _currentSpeed s;
     _onNewSpeedCallback := _onNewSpeedCallback s;
     _suppressLogs := _suppressLogs s; effects := effects s |}.

Definition set_currentSpeed (v : number) (s : state) : state :=
  {| _speed := _speed s; _currentSpeed := v;
     _onNewSpeedCallback := _onNewSpeedCallback s;
     _suppressLogs := _suppressLogs s; effects := effects s |}.

Definition set_onNewSpeedCallback (v : option callback) (s : state) : state :=
  {| _speed := _speed s; _currentSpeed := _currentSpeed s;
     _onNewSpeedCallback := v;
     _suppressLogs := _suppressLogs s; effects := effects s |}.

Definition set_suppressLogs (v : bool) (s : state) : state :=
  {| _speed := _speed s; _currentSpeed := _currentSpeed s;
     _onNewSpeedCallback := _onNewSpeedCallback s;
     _suppressLogs := v; effects := effects s |}.

Definition add_effect (e : event) (s : state) : state :=
  {| _speed := _speed s; _currentSpeed := _currentSpeed s;
     _onNewSpeedCallback := _onNewSpeedCallback s;
     _suppressLogs := _suppressLogs s; effects := effects s ++ [e] |}.

(** Computations on the state of the variant. *)
Definition L (A : Type) : Type := state → A * state.

#[global] Instance L_ret : MRet L := λ A a s, (a, s).
#[global] Instance L_bind : MBind L := λ A B f m s,
  let '(a, s') := m s in f a s'.

Definition get_state : L state := λ s, (s, s).
Definition modify (f : state → state) : L unit := λ s, (tt, f s).
Definition perform (e : event) : L unit := modify (add_effect e).
Definition skip : L unit := mret tt.

Definition log (m : message) : L unit :=
  s ← get_state;
  if negb (_suppressLogs s) then perform (ConsoleLog m) else skip.

Definition estimateGasCost : L unit :=
  perform (HttpGet gasStationUrl).

Definition init (onNewSpeedsFunction : option callback)
    (checkIntervalInMinutes : option number) (suppressLogs : bool) : L unit :=
  modify (set_suppressLogs suppressLogs);;
  log MsgInitializing;;
  modify (set_onNewSpeedCallback onNewSpeedsFunction);;
  estimateGasCost;;
  let interval :=
    match checkIntervalInMinutes with
    | Some n => if truthy n then n else defaultIntervalInMinutes
    | None => defaultIntervalInMinutes
    end in
  perform (SetInterval (num 1000 * num 60 * interval)%num).

Definition onGasPricesReceived (r : response) : L unit :=
  let newSpeed1 := num_ceil (safeLow r / num 10)%num in
  let newSpeed2 := num_ceil (average r / num 10)%num in
  let newSpeed3 := num_ceil (fast r / num 10)%num in
  let newSpeed4 := num_ceil (fastest r / num 10)%num in
  s ← get_state;
  if value_neb (array_get (_speed s) (num 1)) newSpeed1
     || value_neb (array_get (_speed s) (num 2)) newSpeed2
     || value_neb (array_get (_speed s) (num 3)) newSpeed3
     || value_neb (array_get (_speed s) (num 4)) newSpeed4
  then
    log (MsgNewSpeedLimits newSpeed1 newSpeed2 newSpeed3 newSpeed4);;
    modify (λ s, set_speed (array_set 1 newSpeed1 (_speed s)) s);;
    modify (λ s, set_speed (array_set 2 newSpeed2 (_speed s)) s);;
    modify (λ s, set_speed (array_set 3 newSpeed3 (_speed s)) s);;
    modify (λ s, set_speed (array_set 4 newSpeed4 (_speed s)) s);;
    s ← get_state;
    match _onNewSpeedCallback s with
    | Some f => perform (Call f [])
    | None => skip
    end
  else skip.

Definition estimateGasCost_callback (data : response) (status : string) : L unit :=
  if String.eqb status "success" then onGasPricesReceived data else skip.

Definition currentSpeed : L number :=
  s ← get_state; mret (_currentSpeed s).

Definition idealGasPrice (speed : option number) : L number :=
  s ← get_state;
  match speed with
  | Some t =>
      if negb (truthy t)
      then mret (to_number (array_get (_speed s) (_currentSpeed s)) * num 1000000000)%num
      else mret (to_number (array_get (_speed s) t) * num 1000000000)%num
  | None =>
      mret (to_number (array_get (_speed s) (_currentSpeed s)) * num 1000000000)%num
  end.

(** The result is a number, or [undefined] for a slot that does not
    exist. *)
Definition idealGasPriceInGwei (speed : option number) : L (option number) :=
  s ← get_state;
  match speed with
  | Some t =>
      if negb (truthy t)
      then mret (array_get (_speed s) (_currentSpeed s))
      else mret (array_get (_speed s) t)
  | None => mret (array_get (_speed s) (_currentSpeed s))
  end.

Definition setSpeed (speed : number) : L bool :=
  if (speed <? num 1)%num || (speed >? num 4)%num then mret false
  else
    modify (set_currentSpeed speed);;
    s ← get_state;
    log (MsgDefaultSpeedSet (_currentSpeed s));;
    mret true.

Definition nextSpeed : L number :=
  s ← get_state;
  let nextIndex := ((_currentSpeed s + num 1) mod num 5)%num in
  let nextIndex := if (nextIndex == num 0)%num then num 1 else nextIndex in
  setSpeed nextIndex;;
  s ← get_state;
  mret (_currentSpeed s).

(** [_speed.slice(0)] copies the array, [shift()] drops its first
    element. *)
Definition speeds : L (list (option number)) :=
  s ← get_state;
  let trimmedSpeeds := _speed s in
  let trimmedSpeeds := drop 1 trimmedSpeeds in
  mret trimmedSpeeds.

(** [n] calls of [nextSpeed] in a row. *)
Fixpoint nextSpeed_times (n : nat) (s : state) : state :=
  match n with
  | O => s
  | S n => nextSpeed_times n (nextSpeed s).2
  end.

End FiveSlot.

(** ** Vocabulary of the specification *)

(** One of the four speeds 1, 2, 3, 4. *)
Definition is_tier (t : number) : bool :=
  (t == num 1)%num || (t == num 2)%num || (t == num 3)%num || (t == num 4)%num.

(** An omitted argument, or one that [!speed] takes for absent. *)
Definition falsy (speed : option number) : bool :=
  match speed with
  | Some t => negb (truthy t)
  | None => true
  end.

(** The number of invocations of host functions among some effects. *)
Fixpoint calls (l : list event) : nat :=
  match l with
  | [] => 0
  | Call _ _ :: l => S (calls l)
  | _ :: l => calls l
  end.

(** The comparison of line 58, on a table with its four entries. *)
Definition prices_differ (e1 e2 e3 e4 : speed_entry)
    (new : speed_entry * speed_entry * speed_entry * speed_entry) : bool :=
  let '(c1, c2, c3, c4) := new in
  (gwei e1 != gwei c1)%num || (gwei e2 != gwei c2)%num ||
  (gwei e3 != gwei c3)%num || (gwei e4 != gwei c4)%num.

(** The four prices of some entries agree, as [==] sees it. *)
Definition same_prices
    (a b : speed_entry * speed_entry * speed_entry * speed_entry) : bool :=
  let '(a1, a2, a3, a4) := a in
  let '(b1, b2, b3, b4) := b in
  (gwei a1 == gwei b1)%num && (gwei a2 == gwei b2)%num &&
  (gwei a3 == gwei b3)%num && (gwei a4 == gwei b4)%num.

(** The table made of four entries. *)
Definition table_of
    (new : speed_entry * speed_entry * speed_entry * speed_entry)
  : list (option speed_entry) :=
  let '(c1, c2, c3, c4) := new in [Some c1; Some c2; Some c3; Some c4].

(** The state [setSpeed] leaves when it accepts its argument. *)
Definition speed_set (speed : number) (s : state) : state :=
  let s' := set_currentSpeed speed s in
  if _suppressLogs s then s'
  else add_effect (ConsoleLog (MsgDefaultSpeedSet speed)) s'.

(** The operations that belong to a refresh: the request going out, and
    its end. *)
Definition is_refresh (o : operation) : bool :=
  match o with
  | TimerTick | RequestAnswered _ _ | RequestFailed => true
  | _ => false
  end.

(** The response shown in the documentation of [details], and the same
    response with other waiting times. *)
Definition example_response : response := {|
  safeLow := num 10; average := num 10; fast := num 80; fastest := num 350;
  safeLowWait := Fin (16 # 5); avgWait := Fin (16 # 5);
  fastWait := Fin (1 # 2); fastestWait := Fin (1 # 2);
  passthrough := [("blockNum"%string, num 9262855)]
|}.

Definition example_response_slower : response := {|
  safeLow := num 10; average := num 10; fast := num 80; fastest := num 350;
  safeLowWait := Fin (41 # 10); avgWait := Fin (7 # 2);
  fastWait := Fin (7 # 10); fastestWait := Fin (7 # 10);
  passthrough := [("blockNum"%string, num 9262856)]
|}.

(** A response whose prices are the ones the table holds when the module
    is loaded (1, 5, 10 and 20 gwei). *)
Definition response_with_default_prices : response := {|
  safeLow := num 10; average := num 50; fast := num 100; fastest := num 200;
  safeLowWait := Fin (16 # 5); avgWait := Fin (2 # 1);
  fastWait := Fin (1 # 1); fastestWait := Fin (1 # 2);
  passthrough := []
|}.

(** The state right after [init(f)] was called with a callback. *)
Definition started (f : callback) : state :=
  after (init (Some f) None false) initial_state.

(** A freshly loaded module that received the documented response, and
    then the same prices with other waiting times. *)
Definition after_first_answer : state :=
  after (estimateGasCost_callback example_response "success") initial_state.

Definition after_second_answer : state :=
  after (estimateGasCost_callback example_response_slower "success")
    after_first_answer.

(** The state after a refresh that found new prices. *)
Definition refreshed (r : response)
    (new : speed_entry * speed_entry * speed_entry * speed_entry)
    (s : state) : state :=
  let '(c1, c2, c3, c4) := new in
  {| _speeds := [Some c1; Some c2; Some c3; Some c4];
     _currentSpeed := _currentSpeed s;
     _onNewSpeedCallback := _onNewSpeedCallback s;
     _suppressLogs := _suppressLogs s;
     _optimized := _optimized s;
     _details := Some r;
     effects :=
       (effects s ++
        (if _suppressLogs s then []
         else [ConsoleLog (MsgNewSpeedLimits (gwei c1) (gwei c2) (gwei c3) (gwei c4))])) ++
       (match _onNewSpeedCallback s with
        | Some f => [Call f []]
        | None => []
        end) |}.

(** [preserves P m]: whatever [m] does, and whether it returns or throws,
    a state satisfying [P] is left satisfying [P]. *)
Definition preserves {A : Type} (P : state → Prop) (m : M A) : Prop :=
  ∀ s, P s → P (after m s).

(** The table has its four entries. *)
Definition table_ok (s : state) : Prop :=
  ∃ e1 e2 e3 e4, _speeds s = [Some e1; Some e2; Some e3; Some e4].

(** A call of [setSpeed] passes an integer. *)
Definition integer_argument (o : operation) : Prop :=
  match o with
  | CallSetSpeed t => ∃ z : Z, t = num z
  | _ => True
  end.

(** ** Counting over runs *)

(** The number of effects of some kind. *)
Fixpoint count_events (p : event → bool) (l : list event) : nat :=
  match l with
  | [] => 0
  | e :: l => (if p e then 1 else 0) + count_events p l
  end.

Definition is_console_log (e : event) : bool :=
  match e with ConsoleLog _ => true | _ => false end.

Definition is_http_get (e : event) : bool :=
  match e with HttpGet _ => true | _ => false end.

Definition is_set_interval (e : event) : bool :=
  match e with SetInterval _ => true | _ => false end.

Definition is_call (e : event) : bool :=
  match e with Call _ _ => true | _ => false end.

(** The number of operations of some kind. *)
Fixpoint count_ops (p : operation → bool) (ops : list operation) : nat :=
  match ops with
  | [] => 0
  | o :: ops => (if p o then 1 else 0) + count_ops p ops
  end.

Definition is_init (o : operation) : bool :=
  match o with CallInit _ _ _ => true | _ => false end.

Definition is_tick (o : operation) : bool :=
  match o with TimerTick => true | _ => false end.

(** An answer that the function given to [$.get] lets through. *)
Definition is_successful_answer (o : operation) : bool :=
  match o with
  | RequestAnswered _ status => String.eqb status "success"
  | _ => false
  end.

(** The calls that only read. *)
Definition is_read (o : operation) : bool :=
  match o with
  | CallCurrentSpeed | CallIdealGasPrice _ | CallIdealGasPriceInGwei _
  | CallSpeeds | CallDetails => true
  | _ => false
  end.

(** Operations without the reads. *)
Fixpoint without_reads (ops : list operation) : list operation :=
  match ops with
  | [] => []
  | o :: ops => if is_read o then without_reads ops else o :: without_reads ops
  end.

(** The body of the last answer of a run that was let through, after
    [d]. *)
Fixpoint last_answer (d : option response) (ops : list operation) : option response :=
  match ops with
  | [] => d
  | RequestAnswered data status :: ops =>
      last_answer (if String.eqb status "success" then Some data else d) ops
  | _ :: ops => last_answer d ops
  end.

(** Every [init] of a run asks for silence. *)
Definition inits_suppress (o : operation) : Prop :=
  match o with
  | CallInit _ _ suppress => suppress = true
  | _ => True
  end.

(** The timer period [init] asks for. *)
Definition init_period (minutes : option number) : number :=
  (num 1000 * num 60 *
   (if falsy minutes then defaultIntervalInMinutes else default NaN minutes))%num.

(** The request and the timer an operation sets off. *)
Definition scheduling (o : operation) : list event :=
  match o with
  | CallInit _ minutes _ => [HttpGet gasStationUrl; SetInterval (init_period minutes)]
  | TimerTick => [HttpGet gasStationUrl]
  | _ => []
  end.

(** Logging is off while an operation runs. *)
Definition silent (o : operation) (s : state) : bool :=
  match o with
  | CallInit _ _ suppress => suppress
  | _ => _suppressLogs s
  end.

Arguments num_add : simpl never.
Arguments num_sub : simpl never.
Arguments num_mul : simpl never.
Arguments num_div : simpl never.
Arguments num_rem : simpl never.
Arguments num_ltb : simpl never.
Arguments num_eqb : simpl never.

(** ** Facts about numbers and arrays *)

Example rem_wraps : (num 5 mod num 4)%num = num 1 ∧ (num 4 mod num 4)%num = num 0.
Proof. split; reflexivity. Qed.

Example rem_sign_of_dividend :
  (num (-5) mod num 4)%num = num (-1) ∧ (Fin (7 # 2) mod num 4)%num = Fin (7 # 2).
Proof. split; reflexivity. Qed.

Example div_by_10 :
  (num 350 / num 10)%num = num 35 ∧ (num 125 / num 10)%num = Fin (25 # 2) ∧
  (NaN / num 10)%num = NaN.
Proof. repeat split; reflexivity. Qed.

Example nan_compares_false :
  (NaN <? num 1)%num = false ∧ (NaN >? num 4)%num = false ∧ (NaN != NaN)%num = true.
Proof. repeat split; reflexivity. Qed.

Lemma num_eqb_sym (x y : number) : (x == y)%num = (y == x)%num.
Proof.
  destruct x as [|a|p], y as [|b|q]; unfold num_eqb; try reflexivity.
  - destruct a, b; reflexivity.
  - destruct (Qeq_bool p q) eqn:E, (Qeq_bool q p) eqn:E'; try reflexivity.
    + apply Qeq_bool_iff in E. symmetry in E. apply Qeq_bool_iff in E. congruence.
    + apply Qeq_bool_iff in E'. symmetry in E'. apply Qeq_bool_iff in E'. congruence.
Qed.

Lemma num_eqb_trans (x y z : number) :
  (x == y)%num = true → (y == z)%num = true → (x == z)%num = true.
Proof.
  destruct x as [|a|p], y as [|b|q], z as [|c|r]; unfold num_eqb; try discriminate.
  - destruct a, b, c; simpl; congruence.
  - intros H1 H2. apply Qeq_bool_iff in H1, H2. apply Qeq_bool_iff.
    rewrite H1. exact H2.
Qed.

Lemma array_index_num (z : Z) :
  0 <= z → array_index (num z) = Some (Z.to_nat z).
Proof.
  intros Hz. unfold array_index, num, inject_Z.
  assert (Hred : Qred (z # 1) = z # 1).
  { apply Qcanon.Qred_identity. simpl. apply Z.gcd_1_r. }
  rewrite Hred. simpl.
  destruct (0 <=? z) eqn:E; [reflexivity | lia].
Qed.

Lemma speeds_at_num (z : Z) (s : state) :
  0 <= z →
  speeds_at (num z) s =
    match mjoin (_speeds s !! Z.to_nat z) with
    | Some e => (Normal e, s)
    | None => (Throw TypeError, s)
    end.
Proof.
  intros Hz. unfold speeds_at, array_get, mbind, M_bind, get_state.
  rewrite (array_index_num z Hz).
  destruct (mjoin (_speeds s !! Z.to_nat z)); reflexivity.
Qed.

(** ** What a successful answer does *)

Lemma gwei_differs_at (i : Z) (g : number) (s : state) (e : speed_entry) :
  0 <= i → _speeds s !! Z.to_nat i = Some (Some e) →
  gwei_differs i g s = (Normal (gwei e != g)%num, s).
Proof.
  intros Hi He. unfold gwei_differs, mbind, M_bind.
  rewrite (speeds_at_num i s Hi), He. reflexivity.
Qed.

(** On a table with its four entries the refresh never throws: it stores
    the response, and then either replaces the table, logs and notifies,
    or does nothing more. *)
Lemma onGasPricesReceived_table (r : response) (s : state)
    (e1 e2 e3 e4 : speed_entry) :
  _speeds s = [Some e1; Some e2; Some e3; Some e4] →
  onGasPricesReceived r s =
    let new := optimize (_optimized s) (newSpeeds r) in
    if prices_differ e1 e2 e3 e4 new
    then (Normal tt, refreshed r new s)
    else (Normal tt, set_details (Some r) s).
Proof.
  destruct s as [tbl cur cb sup opt det eff]. intros Htbl.
  simpl in Htbl. subst tbl. unfold onGasPricesReceived.
  unfold mbind at 1. unfold M_bind at 1. unfold modify at 1.
  unfold mbind at 1. unfold M_bind at 1. unfold get_state at 1.
  unfold set_details at 1. cbn [_optimized]. cbv zeta.
  destruct (optimize opt (newSpeeds r)) as [[[c1 c2] c3] c4] eqn:Hnew.
  set (s0 := set_details (Some r) _).
  unfold mbind at 1. unfold M_bind at 1.
  unfold orM, mbind, M_bind.
  unfold prices_differ, refreshed.
  rewrite (gwei_differs_at 0 _ s0 e1) by (lia || reflexivity).
  destruct (gwei e1 != gwei c1)%num; cbn beta iota;
    [| rewrite (gwei_differs_at 1 _ s0 e2) by (lia || reflexivity);
       destruct (gwei e2 != gwei c2)%num; cbn beta iota;
       [| rewrite (gwei_differs_at 2 _ s0 e3) by (lia || reflexivity);
          destruct (gwei e3 != gwei c3)%num; cbn beta iota;
          [| rewrite (gwei_differs_at 3 _ s0 e4) by (lia || reflexivity);
             destruct (gwei e4 != gwei c4)%num; cbn beta iota ] ] ].
  all: unfold log, get_state, mbind, M_bind, modify, perform, skip, mret, M_ret,
         array_set, s0; simpl.
  all: destruct sup, cb; simpl; unfold modify, set_speeds, set_details, add_effect;
    simpl; rewrite ?app_nil_r; reflexivity.
Qed.

(** ** Properties of the state that a computation keeps *)
Section Preservation.

Context (P : state → Prop).

Lemma preserves_ret {A : Type} (a : A) : preserves P (mret a).
Proof. intros s Hs. exact Hs. Qed.

Lemma preserves_skip : preserves P skip.
Proof. intros s Hs. exact Hs. Qed.

Lemma preserves_throw {A : Type} (e : exn) : preserves P (throw (A := A) e).
Proof. intros s Hs. exact Hs. Qed.

Lemma preserves_get_state : preserves P get_state.
Proof. intros s Hs. exact Hs. Qed.

Lemma preserves_bind {A B : Type} (m : M A) (f : A → M B) :
  preserves P m → (∀ a, preserves P (f a)) → preserves P (m ≫= f).
Proof.
  intros Hm Hf s Hs. specialize (Hm s Hs).
  unfold after, mbind, M_bind in *.
  destruct (m s) as [[a|e] s']; simpl in *.
  - apply (Hf a s' Hm).
  - exact Hm.
Qed.

Lemma preserves_modify (f : state → state) :
  (∀ s, P s → P (f s)) → preserves P (modify f).
Proof. intros Hf s Hs. apply Hf, Hs. Qed.

Lemma preserves_if {A : Type} (b : bool) (m1 m2 : M A) :
  preserves P m1 → preserves P m2 → preserves P (if b then m1 else m2).
Proof. destruct b; auto. Qed.

Lemma preserves_speeds_at (k : number) : preserves P (speeds_at k).
Proof.
  apply preserves_bind; [apply preserves_get_state |].
  intros s. destruct (array_get (_speeds s) k);
    [apply preserves_ret | apply preserves_throw].
Qed.

Lemma preserves_gwei_differs (i : Z) (g : number) : preserves P (gwei_differs i g).
Proof.
  apply preserves_bind; [apply preserves_speeds_at |].
  intros e. apply preserves_ret.
Qed.

Lemma preserves_orM (a b : M bool) :
  preserves P a → preserves P b → preserves P (orM a b).
Proof.
  intros Ha Hb. apply preserves_bind; [exact Ha |].
  intros [|]; [apply preserves_ret | exact Hb].
Qed.

(** Effects are of no concern to [P]. *)
Hypothesis P_add_effect : ∀ e s, P s → P (add_effect e s).

Lemma preserves_perform (e : event) : preserves P (perform e).
Proof. apply preserves_modify, P_add_effect. Qed.

Lemma preserves_log (m : message) : preserves P (log m).
Proof.
  apply preserves_bind; [apply preserves_get_state |].
  intros s. apply preserves_if; [apply preserves_perform | apply preserves_skip].
Qed.

Lemma preserves_estimateGasCost : preserves P estimateGasCost.
Proof. apply preserves_perform. Qed.

Lemma preserves_currentSpeed : preserves P currentSpeed.
Proof.
  apply preserves_bind; [apply preserves_get_state |].
  intros s. apply preserves_ret.
Qed.

Lemma preserves_currentWait : preserves P currentWait.
Proof.
  apply preserves_bind; [apply preserves_get_state |]. intros s.
  apply preserves_bind; [apply preserves_speeds_at |]. intros e.
  apply preserves_ret.
Qed.

Lemma preserves_idealGasPriceInGwei (speed : option number) :
  preserves P (idealGasPriceInGwei speed).
Proof.
  apply preserves_bind; [apply preserves_get_state |]. intros s.
  apply preserves_bind; [apply preserves_speeds_at |]. intros e.
  apply preserves_ret.
Qed.

Lemma preserves_idealGasPrice (speed : option number) :
  preserves P (idealGasPrice speed).
Proof.
  apply preserves_bind; [apply preserves_idealGasPriceInGwei |]. intros g.
  apply preserves_ret.
Qed.

Lemma preserves_speeds : preserves P speeds.
Proof.
  apply preserves_bind; [apply preserves_get_state |].
  intros s. apply preserves_ret.
Qed.

Lemma preserves_details : preserves P details.
Proof.
  apply preserves_bind; [apply preserves_get_state |].
  intros s. apply preserves_ret.
Qed.

(** The part of [onGasPricesReceived] that follows the assignment to
    [_details]. *)
Hypothesis P_set_speeds :
  ∀ i c s, (i < 4)%nat → P s → P (set_speeds (array_set i c (_speeds s)) s).

(** [P] holds after a refresh as soon as the assignment to [_details]
    establishes it. *)
Lemma onGasPricesReceived_establishes (P0 : state → Prop) (r : response) :
  (∀ s, P0 s → P (set_details (Some r) s)) →
  ∀ s, P0 s → P (after (onGasPricesReceived r) s).
Proof.
  intros Hdet s Hs. unfold onGasPricesReceived, after.
  unfold mbind at 1. unfold M_bind at 1. unfold modify at 1.
  match goal with
  | |- P (?rest ?s0).2 =>
      change (P (after rest s0)); cut (preserves P rest);
      [intros Hrest; apply Hrest, Hdet, Hs |]
  end.
  apply preserves_bind; [apply preserves_get_state |]. intros s1.
  destruct (optimize (_optimized s1) (newSpeeds r)) as [[[c1 c2] c3] c4].
  apply preserves_bind.
  { repeat apply preserves_orM; apply preserves_gwei_differs. }
  intros [|]; [| apply preserves_skip].
  apply preserves_bind; [apply preserves_log |]. intros _.
  do 4 (apply preserves_bind;
          [apply preserves_modify; intros ?; apply P_set_speeds; lia |];
        intros _).
  apply preserves_bind; [apply preserves_get_state |]. intros s'.
  destruct (_onNewSpeedCallback s'); [apply preserves_perform | apply preserves_skip].
Qed.

Lemma preserves_onGasPricesReceived (r : response) :
  (∀ s, P s → P (set_details (Some r) s)) →
  preserves P (onGasPricesReceived r).
Proof. intros Hdet. exact (onGasPricesReceived_establishes P r Hdet). Qed.

End Preservation.

(** ** Selecting a speed *)

Lemma num_ltb_num (a b : Z) : (num a <? num b)%num = (a <? b)%Z.
Proof.
  unfold num_ltb, num, inject_Z, Qle_bool. simpl.
  rewrite !Z.mul_1_r. destruct (Z.leb_spec b a), (Z.ltb_spec a b); simpl; lia || reflexivity.
Qed.

Lemma num_eqb_num (a b : Z) : (num a == num b)%num = (a =? b)%Z.
Proof.
  unfold num_eqb, num, inject_Z, Qeq_bool. simpl.
  rewrite !Z.mul_1_r. reflexivity.
Qed.

Lemma is_tier_num (z : Z) : is_tier (num z) = (1 <=? z) && (z <=? 4).
Proof.
  unfold is_tier. rewrite !num_eqb_num.
  destruct (Z.eqb_spec z 1), (Z.eqb_spec z 2), (Z.eqb_spec z 3), (Z.eqb_spec z 4),
    (Z.leb_spec 1 z), (Z.leb_spec z 4); simpl; lia || reflexivity.
Qed.

Lemma setSpeed_unfold (speed : number) (s : state) :
  setSpeed speed s =
    if (speed <? num 1)%num || (speed >? num 4)%num
    then (Normal false, s)
    else (Normal true, speed_set speed s).
Proof.
  unfold setSpeed, speed_set.
  destruct ((speed <? num 1)%num || (speed >? num 4)%num); [reflexivity |].
  cbv [mbind M_bind modify get_state log perform skip mret M_ret].
  cbn [_suppressLogs set_currentSpeed _currentSpeed].
  destruct (_suppressLogs s); reflexivity.
Qed.

Lemma setSpeed_num (z : Z) (s : state) :
  setSpeed (num z) s =
    if is_tier (num z)
    then (Normal true, speed_set (num z) s)
    else (Normal false, s).
Proof.
  rewrite setSpeed_unfold, is_tier_num. unfold num_gtb. rewrite !num_ltb_num.
  destruct (Z.ltb_spec z 1), (Z.ltb_spec 4 z), (Z.leb_spec 1 z), (Z.leb_spec z 4);
    simpl; lia || reflexivity.
Qed.

Lemma nextSpeed_unfold (s : state) :
  nextSpeed s =
    let nextIndex := ((_currentSpeed s + num 1) mod num 4)%num in
    let s' := after (setSpeed nextIndex) s in
    (Normal (_currentSpeed s'), s').
Proof.
  unfold nextSpeed, after, mbind, M_bind, get_state. cbv zeta.
  rewrite setSpeed_unfold.
  destruct ((_ <? num 1)%num || (_ >? num 4)%num); reflexivity.
Qed.

(** From 1, 2 and 4 the selection moves on to 2, 3 and 1. *)
Lemma nextSpeed_from_1_2_4 (s : state) :
  (nextSpeed (set_currentSpeed (num 1) s)).1 = Normal (num 2) ∧
  (nextSpeed (set_currentSpeed (num 2) s)).1 = Normal (num 3) ∧
  (nextSpeed (set_currentSpeed (num 4) s)).1 = Normal (num 1).
Proof.
  rewrite !nextSpeed_unfold. cbv zeta. unfold after. simpl _currentSpeed.
  replace ((num 1 + num 1) mod num 4)%num with (num 2) by reflexivity.
  replace ((num 2 + num 1) mod num 4)%num with (num 3) by reflexivity.
  replace ((num 4 + num 1) mod num 4)%num with (num 1) by reflexivity.
  rewrite !setSpeed_num. simpl.
  unfold speed_set. simpl. destruct (_suppressLogs s); auto.
Qed.

(** C1 (defect): starting from speed 3, [nextSpeed] computes
    [(3 + 1) % 4 = 0], [setSpeed(0)] refuses it, and the selection stays
    at 3: the function returns 3 and changes nothing, where a cyclic
    increment goes to 4.  Speed 4 is never reached by [nextSpeed]. *)
Theorem nextSpeed_from_3_stays (s : state) :
  nextSpeed (set_currentSpeed (num 3) s)
  = (Normal (num 3), set_currentSpeed (num 3) s).
Proof.
  rewrite nextSpeed_unfold. cbv zeta. unfold after. simpl _currentSpeed.
  replace ((num 3 + num 1) mod num 4)%num with (num 0) by reflexivity.
  rewrite setSpeed_num. reflexivity.
Qed.

(** The five-slot variant of [nextSpeed] does cycle through all four
    speeds. *)
Lemma legacy_nextSpeed_cycles (s : state) :
  (Legacy.nextSpeed (set_currentSpeed (num 1) s)).1 = Normal (num 2) ∧
  (Legacy.nextSpeed (set_currentSpeed (num 2) s)).1 = Normal (num 3) ∧
  (Legacy.nextSpeed (set_currentSpeed (num 3) s)).1 = Normal (num 4) ∧
  (Legacy.nextSpeed (set_currentSpeed (num 4) s)).1 = Normal (num 1).
Proof.
  unfold Legacy.nextSpeed, mbind, M_bind, get_state. simpl _currentSpeed.
  replace ((num 1 + num 1) mod num 5)%num with (num 2) by reflexivity.
  replace ((num 2 + num 1) mod num 5)%num with (num 3) by reflexivity.
  replace ((num 3 + num 1) mod num 5)%num with (num 4) by reflexivity.
  replace ((num 4 + num 1) mod num 5)%num with (num 0) by reflexivity.
  rewrite !num_eqb_num. simpl.
  rewrite !setSpeed_num. simpl.
  unfold speed_set. simpl. destruct (_suppressLogs s); auto.
Qed.

(** C5 (as amended): for every integer argument [z], [setSpeed] returns
    true and makes [z] the current speed exactly when [z] is one of 1, 2,
    3, 4; for every other integer it returns false, does not throw, and
    leaves the state (so what [currentSpeed] returns) as it was. *)
Theorem setSpeed_integer (z : Z) (s : state) :
  (is_tier (num z) = true ↔ 1 <= z <= 4) ∧
  (setSpeed (num z) s).1 = Normal (is_tier (num z)) ∧
  (is_tier (num z) = true →
     (currentSpeed (after (setSpeed (num z)) s)).1 = Normal (num z)) ∧
  (is_tier (num z) = false → after (setSpeed (num z)) s = s).
Proof.
  unfold after. rewrite setSpeed_num. split; [| split; [| split]].
  - rewrite is_tier_num. lia.
  - destruct (is_tier (num z)); reflexivity.
  - intros ->. unfold speed_set. simpl.
    destruct (_suppressLogs s); reflexivity.
  - intros ->. reflexivity.
Qed.

Lemma setSpeed_integer_witness :
  (currentSpeed (after (setSpeed (num 3)) initial_state)).1 = Normal (num 3) ∧
  after (setSpeed (num 5)) initial_state = initial_state.
Proof.
  split.
  - apply (setSpeed_integer 3 initial_state). reflexivity.
  - apply (setSpeed_integer 5 initial_state). reflexivity.
Defined.

(** C5 (as stated) fails: [setSpeed(2.5)] returns true and makes 2.5 the
    current speed, although 2.5 is none of 1, 2, 3, 4; [setSpeed(NaN)]
    returns true as well, both comparisons of the guard being false. *)
Lemma setSpeed_accepts_fraction :
  is_tier (Fin (5 # 2)) = false ∧
  (setSpeed (Fin (5 # 2)) initial_state).1 = Normal true ∧
  (currentSpeed (after (setSpeed (Fin (5 # 2))) initial_state)).1
    = Normal (Fin (5 # 2)) ∧
  is_tier NaN = false ∧
  (setSpeed NaN initial_state).1 = Normal true.
Proof. repeat split. Qed.

(** ** The selection over the runs of the module *)

(** A property of the state that no assignment of an operation can break
    is kept by the operation. *)
Lemma step_keeps (P : state → Prop) (o : operation) :
  (∀ e s, P s → P (add_effect e s)) →
  (∀ i c s, (i < 4)%nat → P s → P (set_speeds (array_set i c (_speeds s)) s)) →
  (∀ v s, P s → P (set_details v s)) →
  (∀ v s, P s → P (set_suppressLogs v s)) →
  (∀ v s, P s → P (set_onNewSpeedCallback v s)) →
  (∀ v s, P s → P (set_optimized v s)) →
  match o with
  | CallSetSpeed _ | CallNextSpeed => ∀ v s, P s → P (set_currentSpeed v s)
  | _ => True
  end →
  ∀ s, P s → P (step o s).
Proof.
  intros Heff Hspd Hdet Hsup Hcb Hopt Hsel.
  assert (HsetSpeed : ∀ speed,
             (∀ v s, P s → P (set_currentSpeed v s)) → preserves P (setSpeed speed)).
  { intros speed Hcur s Hs. unfold after. rewrite setSpeed_unfold.
    destruct (_ || _); [exact Hs |]. unfold speed_set. simpl.
    destruct (_suppressLogs s); auto. }
  destruct o; intros s Hs; simpl.
  - (* init *)
    revert s Hs. change (preserves P (init f minutes suppress)).
    unfold init.
    apply preserves_bind; [apply preserves_modify, Hsup |]. intros _.
    apply preserves_bind; [apply preserves_log, Heff |]. intros _.
    apply preserves_bind; [apply preserves_modify, Hcb |]. intros _.
    apply preserves_bind; [apply preserves_estimateGasCost, Heff |]. intros _.
    apply preserves_perform, Heff.
  - apply (preserves_currentSpeed P), Hs.
  - apply (preserves_idealGasPrice P), Hs.
  - apply (preserves_idealGasPriceInGwei P), Hs.
  - (* nextSpeed *)
    unfold after. rewrite nextSpeed_unfold. cbv zeta. simpl.
    apply (HsetSpeed _ Hsel), Hs.
  - apply (HsetSpeed _ Hsel), Hs.
  - apply (preserves_speeds P), Hs.
  - revert s Hs. change (preserves P (optimized flag)). unfold optimized.
    apply preserves_bind; [apply preserves_modify, Hopt |]. intros _.
    apply preserves_bind; [apply preserves_get_state |]. intros s.
    apply preserves_log, Heff.
  - apply (preserves_details P), Hs.
  - apply (preserves_estimateGasCost P Heff), Hs.
  - revert s Hs.
    change (preserves P (estimateGasCost_callback data status)).
    unfold estimateGasCost_callback.
    apply preserves_if; [| apply preserves_skip].
    apply preserves_onGasPricesReceived; auto.
  - exact Hs.
Qed.

Lemma currentSpeed_kept_by_step (Q : number → Prop) (o : operation) :
  match o with CallSetSpeed _ | CallNextSpeed => False | _ => True end →
  ∀ s, Q (_currentSpeed s) → Q (_currentSpeed (step o s)).
Proof.
  intros Ho. apply (step_keeps (λ s, Q (_currentSpeed s)) o); auto.
  destruct o; auto; contradiction.
Qed.

(** The table keeps its four entries, whatever happens to the module. *)
Lemma table_kept_by_step (o : operation) (s : state) :
  table_ok s → table_ok (step o s).
Proof.
  apply (step_keeps table_ok o); auto.
  - intros i c x Hi (e1 & e2 & e3 & e4 & Htbl). unfold table_ok. simpl.
    rewrite Htbl. unfold array_set. simpl.
    destruct i as [| [| [| [| i]]]]; [| | | | lia]; simpl; eauto.
  - destruct o; auto.
Qed.

Lemma tier_kept_by_step (o : operation) (s : state) :
  integer_argument o →
  _currentSpeed s ∈ [num 1; num 2; num 3; num 4] →
  _currentSpeed (step o s) ∈ [num 1; num 2; num 3; num 4].
Proof.
  intros Hint Hs.
  destruct o; try (apply (currentSpeed_kept_by_step
                            (λ c, c ∈ [num 1; num 2; num 3; num 4]));
                   [exact I | exact Hs]).
  - (* nextSpeed *)
    simpl. unfold after. rewrite nextSpeed_unfold. cbv zeta. unfold after. simpl.
    destruct s as [tbl cur cb sup opt det eff]. simpl in *.
    repeat (apply elem_of_cons in Hs as [-> | Hs]);
      [| | | | apply elem_of_nil in Hs; contradiction].
    + replace ((num 1 + num 1) mod num 4)%num with (num 2) by reflexivity.
      rewrite setSpeed_num. unfold speed_set. simpl. destruct sup; simpl; repeat constructor.
    + replace ((num 2 + num 1) mod num 4)%num with (num 3) by reflexivity.
      rewrite setSpeed_num. unfold speed_set. simpl. destruct sup; simpl; repeat constructor.
    + replace ((num 3 + num 1) mod num 4)%num with (num 0) by reflexivity.
      rewrite setSpeed_num. simpl. repeat constructor.
    + replace ((num 4 + num 1) mod num 4)%num with (num 1) by reflexivity.
      rewrite setSpeed_num. unfold speed_set. simpl. destruct sup; simpl; repeat constructor.
  - (* setSpeed *)
    destruct Hint as [z ->]. simpl. unfold after. rewrite setSpeed_num.
    destruct (is_tier (num z)) eqn:Hz; [| exact Hs].
    rewrite is_tier_num in Hz.
    assert (z = 1 ∨ z = 2 ∨ z = 3 ∨ z = 4) as [-> | [-> | [-> | ->]]] by lia;
      unfold speed_set; simpl; destruct (_suppressLogs s); simpl; repeat constructor.
Qed.

Lemma run_snoc (ops : list operation) (o : operation) (s : state) :
  run (ops ++ [o]) s = step o (run ops s).
Proof. unfold run. rewrite foldl_app. reflexivity. Qed.

Lemma reachable_table_ok (s : state) : reachable s → table_ok s.
Proof.
  intros [ops ->]. induction ops as [| o ops IH] using rev_ind.
  - do 4 eexists. reflexivity.
  - rewrite run_snoc. apply table_kept_by_step, IH.
Qed.

(** C6 (as amended): in every state reached from the initial one by
    operations of the module in which [setSpeed] is called with integers,
    the current speed is one of 1, 2, 3, 4. *)
Theorem currentSpeed_is_tier (ops : list operation) :
  Forall integer_argument ops →
  _currentSpeed (run ops initial_state) ∈ [num 1; num 2; num 3; num 4].
Proof.
  induction ops as [| o ops IH] using rev_ind; intros Hops.
  - simpl. repeat constructor.
  - apply Forall_app in Hops as [Hops Ho].
    rewrite run_snoc. apply tier_kept_by_step.
    + apply Forall_inv in Ho. exact Ho.
    + apply IH, Hops.
Qed.

Lemma currentSpeed_is_tier_witness :
  _currentSpeed
    (run [CallInit (Some 0%nat) None false; CallSetSpeed (num 7);
          CallSetSpeed (num 3); CallNextSpeed; CallOptimized false]
       initial_state)
  ∈ [num 1; num 2; num 3; num 4].
Proof.
  apply currentSpeed_is_tier.
  repeat (apply Forall_cons; split; [first [exact I | eexists; reflexivity] |]).
  apply Forall_nil. exact I.
Defined.

(** C6 (as stated) fails: after [setSpeed(2.5)] the current speed is 2.5,
    none of 1, 2, 3, 4. *)
Lemma currentSpeed_escapes_tiers :
  reachable (run [CallSetSpeed (Fin (5 # 2))] initial_state) ∧
  is_tier (_currentSpeed (run [CallSetSpeed (Fin (5 # 2))] initial_state)) = false ∧
  _currentSpeed (run [CallSetSpeed (Fin (5 # 2))] initial_state)
    ∉ [num 1; num 2; num 3; num 4].
Proof.
  split; [eexists; reflexivity |]. split; [reflexivity |].
  simpl. intros H.
  repeat (apply elem_of_cons in H as [H | H]; [discriminate H |]).
  apply elem_of_nil in H. exact H.
Qed.

(** ** Refreshing the table *)

Lemma answered_success (r : response) (s : state) (e1 e2 e3 e4 : speed_entry) :
  _speeds s = [Some e1; Some e2; Some e3; Some e4] →
  estimateGasCost_callback r "success" s =
    let new := optimize (_optimized s) (newSpeeds r) in
    if prices_differ e1 e2 e3 e4 new
    then (Normal tt, refreshed r new s)
    else (Normal tt, set_details (Some r) s).
Proof. intros Htbl. apply (onGasPricesReceived_table r s e1 e2 e3 e4 Htbl). Qed.

Lemma calls_app (l1 l2 : list event) : calls (l1 ++ l2) = (calls l1 + calls l2)%nat.
Proof.
  induction l1 as [| [m | u | t | f a] l1 IH]; simpl; rewrite ?IH; reflexivity.
Qed.

Lemma refreshed_fields (r : response)
    (new : speed_entry * speed_entry * speed_entry * speed_entry) (s : state) :
  _speeds (refreshed r new s) = table_of new ∧
  _optimized (refreshed r new s) = _optimized s ∧
  _onNewSpeedCallback (refreshed r new s) = _onNewSpeedCallback s ∧
  calls (effects (refreshed r new s))
    = (calls (effects s) + (match _onNewSpeedCallback s with Some _ => 1 | None => 0 end))%nat.
Proof.
  destruct new as [[[c1 c2] c3] c4]. simpl. repeat split.
  rewrite !calls_app.
  destruct (_suppressLogs s), (_onNewSpeedCallback s); simpl; lia.
Qed.

(** Prices that agree with the stored ones, pairwise, leave the comparison
    of line 58 false. *)
Lemma agreeing_prices_do_not_differ (t1 t2 t3 t4 : speed_entry)
    (new : speed_entry * speed_entry * speed_entry * speed_entry) :
  same_prices (t1, t2, t3, t4) new = true ↔ prices_differ t1 t2 t3 t4 new = false.
Proof.
  destruct new as [[[c1 c2] c3] c4]. unfold same_prices, prices_differ, num_neb.
  destruct (gwei t1 == gwei c1)%num, (gwei t2 == gwei c2)%num,
    (gwei t3 == gwei c3)%num, (gwei t4 == gwei c4)%num; simpl; split; congruence.
Qed.

Lemma same_prices_trans
    (a b c : speed_entry * speed_entry * speed_entry * speed_entry) :
  same_prices a b = true → same_prices b c = true → same_prices a c = true.
Proof.
  destruct a as [[[a1 a2] a3] a4], b as [[[b1 b2] b3] b4], c as [[[c1 c2] c3] c4].
  unfold same_prices. rewrite !andb_true_iff.
  intros [[[A1 A2] A3] A4] [[[B1 B2] B3] B4].
  repeat split; eauto using num_eqb_trans.
Qed.

Lemma same_prices_sym
    (a b : speed_entry * speed_entry * speed_entry * speed_entry) :
  same_prices a b = same_prices b a.
Proof.
  destruct a as [[[a1 a2] a3] a4], b as [[[b1 b2] b3] b4]. unfold same_prices.
  rewrite (num_eqb_sym (gwei a1)), (num_eqb_sym (gwei a2)),
    (num_eqb_sym (gwei a3)), (num_eqb_sym (gwei a4)). reflexivity.
Qed.

(** C2 (as amended): a successful refresh of a table with its four
    entries, with a callback registered, replaces the whole table by the
    four candidates (after optimization) and invokes the callback, without
    arguments, exactly when one of the four candidate prices differs from
    the stored one; otherwise table and effects stay as they were,
    whatever the waiting times.  A second answer whose prices equal those
    of the first changes neither the table nor the effects: the two
    answers together invoke the callback once, on the first, when the
    first brought prices other than the stored ones, and not at all
    otherwise. *)
Theorem refresh_change_detection (s : state) (r r2 : response) (f : callback)
    (e1 e2 e3 e4 : speed_entry) :
  _speeds s = [Some e1; Some e2; Some e3; Some e4] →
  _onNewSpeedCallback s = Some f →
  let new := optimize (_optimized s) (newSpeeds r) in
  let changed := prices_differ e1 e2 e3 e4 new in
  let s1 := after (estimateGasCost_callback r "success") s in
  let s2 := after (estimateGasCost_callback r2 "success") s1 in
  (estimateGasCost_callback r "success" s).1 = Normal tt ∧
  s1 = (if changed then refreshed r new s else set_details (Some r) s) ∧
  _speeds s1 = (if changed then table_of new else _speeds s) ∧
  (∃ logs, calls logs = 0%nat ∧
     effects s1 = if changed then (effects s ++ logs) ++ [Call f []] else effects s) ∧
  calls (effects s1) = (calls (effects s) + (if changed then 1 else 0))%nat ∧
  (same_prices (optimize (_optimized s) (newSpeeds r2)) new = true →
     _speeds s2 = _speeds s1 ∧ effects s2 = effects s1 ∧
     calls (effects s2) = (calls (effects s) + (if changed then 1 else 0))%nat).
Proof.
  intros Htbl Hcb new changed s1 s2.
  assert (Hs1 : estimateGasCost_callback r "success" s
                = if changed then (Normal tt, refreshed r new s)
                  else (Normal tt, set_details (Some r) s))
    by apply (answered_success r s e1 e2 e3 e4 Htbl).
  assert (Es1 : s1 = if changed then refreshed r new s else set_details (Some r) s).
  { unfold s1, after. rewrite Hs1. destruct changed; reflexivity. }
  destruct (refreshed_fields r new s) as (Rtbl & Ropt & Rcb & Rcalls).
  rewrite Hcb in Rcalls.
  assert (Hcalls : calls (effects s1)
                   = (calls (effects s) + (if changed then 1 else 0))%nat).
  { rewrite Es1. destruct changed; [exact Rcalls | simpl; lia]. }
  split; [rewrite Hs1; destruct changed; reflexivity |].
  split; [exact Es1 |].
  split; [rewrite Es1; destruct changed; [exact Rtbl | reflexivity] |].
  split.
  { rewrite Es1. destruct changed; [| exists []; split; reflexivity].
    unfold refreshed. destruct new as [[[c1 c2] c3] c4]. simpl. rewrite Hcb.
    eexists. split; [| reflexivity]. destruct (_suppressLogs s); reflexivity. }
  split; [exact Hcalls |].
  intros Hsame.
  (* the table the second answer is compared with agrees with [new] *)
  assert (Hstored : ∃ t1 t2 t3 t4,
             _speeds s1 = [Some t1; Some t2; Some t3; Some t4] ∧
             same_prices (t1, t2, t3, t4) new = true).
  { rewrite Es1. destruct changed eqn:Hch.
    - rewrite Rtbl. destruct new as [[[c1 c2] c3] c4] eqn:Hnew.
      exists c1, c2, c3, c4. split; [reflexivity |].
      apply (same_prices_trans _ (optimize (_optimized s) (newSpeeds r2)));
        [rewrite same_prices_sym |]; exact Hsame.
    - exists e1, e2, e3, e4. split; [exact Htbl |].
      apply agreeing_prices_do_not_differ. exact Hch. }
  destruct Hstored as (t1 & t2 & t3 & t4 & Htbl1 & Hagree).
  assert (Hopt1 : _optimized s1 = _optimized s).
  { rewrite Es1. destruct changed; [exact Ropt | reflexivity]. }
  assert (Hs2 : s2 = set_details (Some r2) s1).
  { unfold s2, after. rewrite (answered_success r2 s1 t1 t2 t3 t4 Htbl1).
    cbv zeta. rewrite Hopt1.
    assert (Hno : prices_differ t1 t2 t3 t4 (optimize (_optimized s) (newSpeeds r2))
                  = false).
    { apply agreeing_prices_do_not_differ.
      apply (same_prices_trans _ new); [exact Hagree |].
      rewrite same_prices_sym. exact Hsame. }
    rewrite Hno. reflexivity. }
  rewrite Hs2. simpl. repeat split. exact Hcalls.
Qed.

(** Two answers with the same prices and different waiting times: one
    invocation in all, and the waiting times of the first answer stay. *)
Lemma refresh_change_detection_witness :
  _speeds (after (estimateGasCost_callback example_response_slower "success")
             (after (estimateGasCost_callback example_response "success")
                (started 7%nat)))
  = _speeds (after (estimateGasCost_callback example_response "success")
               (started 7%nat)) ∧
  calls (effects (after (estimateGasCost_callback example_response_slower "success")
                    (after (estimateGasCost_callback example_response "success")
                       (started 7%nat))))
  = (calls (effects (started 7%nat)) + 1)%nat.
Proof.
  destruct (refresh_change_detection (started 7%nat) example_response
              example_response_slower 7%nat
              {| gwei := num 1; wait := Fin (71 # 10) |}
              {| gwei := num 5; wait := Fin (7 # 2) |}
              {| gwei := num 10; wait := Fin (1 # 2) |}
              {| gwei := num 20; wait := Fin (1 # 2) |} eq_refl eq_refl)
    as (_ & _ & _ & _ & _ & Hsecond).
  destruct (Hsecond eq_refl) as (Htbl & _ & Hcalls).
  split; [exact Htbl | exact Hcalls].
Defined.

(** C2 (as stated) fails in its last part: two answers with the same
    prices invoke the callback once only if the first brings new prices.
    A module just started holds the prices 1, 5, 10, 20; two answers that
    report these very prices invoke the callback not once but never. *)
Lemma two_answers_with_stored_prices_never_notify :
  _onNewSpeedCallback (started 7%nat) = Some 7%nat ∧
  same_prices (optimize true (newSpeeds response_with_default_prices))
              (optimize true (newSpeeds response_with_default_prices)) = true ∧
  calls (effects (after (estimateGasCost_callback response_with_default_prices "success")
                    (after (estimateGasCost_callback response_with_default_prices "success")
                       (started 7%nat))))
  = calls (effects (started 7%nat)).
Proof. repeat split. Qed.

(** C3: with the module optimized, a fastest entry whose waiting time
    equals that of the fast entry is replaced by the fast entry, price and
    waiting time, before the comparison with the table; not optimized, the
    fastest entry keeps its own price divided by 10 and its own waiting
    time.  On the documented response (fast 80 / 0.5, fastest 350 / 0.5),
    received by a freshly loaded module, the stored fastest entry is the
    stored fast entry, 8 gwei, when optimized, and 35 gwei when not. *)
Theorem optimization_collapses_fastest (r : response) (s : state)
    (e1 e2 e3 e4 : speed_entry) :
  _speeds s = [Some e1; Some e2; Some e3; Some e4] →
  let fast_entry := {| gwei := (fast r / num 10)%num; wait := fastWait r |} in
  let fastest_entry := {| gwei := (fastest r / num 10)%num; wait := fastestWait r |} in
  ((fastestWait r == fastWait r)%num = true →
     (optimize true (newSpeeds r)).1.2 = fast_entry ∧
     (optimize true (newSpeeds r)).2 = fast_entry) ∧
  (optimize false (newSpeeds r)).1.2 = fast_entry ∧
  (optimize false (newSpeeds r)).2 = fastest_entry ∧
  (prices_differ e1 e2 e3 e4 (optimize (_optimized s) (newSpeeds r)) = true →
     _speeds (after (estimateGasCost_callback r "success") s)
       = table_of (optimize (_optimized s) (newSpeeds r))) ∧
  (optimize true (newSpeeds example_response)).2
    = {| gwei := num 8; wait := Fin (1 # 2) |} ∧
  (optimize false (newSpeeds example_response)).2
    = {| gwei := num 35; wait := Fin (1 # 2) |} ∧
  (let s' := after (estimateGasCost_callback example_response "success")
               (after (optimized true) initial_state) in
   _speeds s' !! 3%nat = Some (Some {| gwei := num 8; wait := Fin (1 # 2) |}) ∧
   _speeds s' !! 3%nat = _speeds s' !! 2%nat) ∧
  (let s' := after (estimateGasCost_callback example_response "success")
               (after (optimized false) initial_state) in
   _speeds s' !! 3%nat = Some (Some {| gwei := num 35; wait := Fin (1 # 2) |}) ∧
   _speeds s' !! 2%nat = Some (Some {| gwei := num 8; wait := Fin (1 # 2) |})).
Proof.
  intros Htbl fast_entry fastest_entry.
  split; [| split; [| split; [| split; [| split; [| split; [| split]]]]]].
  - intros Hw. unfold optimize, newSpeeds. simpl. rewrite Hw. split; reflexivity.
  - reflexivity.
  - reflexivity.
  - intros Hch. unfold after. rewrite (answered_success r s e1 e2 e3 e4 Htbl).
    cbv zeta. rewrite Hch. apply refreshed_fields.
  - reflexivity.
  - reflexivity.
  - split; reflexivity.
  - split; reflexivity.
Qed.

Lemma optimization_collapses_fastest_witness :
  (optimize true (newSpeeds example_response)).2
    = {| gwei := (num 80 / num 10)%num; wait := Fin (1 # 2) |} ∧
  _speeds (after (estimateGasCost_callback example_response "success") initial_state)
    = table_of (optimize true (newSpeeds example_response)).
Proof.
  destruct (optimization_collapses_fastest example_response initial_state
              {| gwei := num 1; wait := Fin (71 # 10) |}
              {| gwei := num 5; wait := Fin (7 # 2) |}
              {| gwei := num 10; wait := Fin (1 # 2) |}
              {| gwei := num 20; wait := Fin (1 # 2) |} eq_refl)
    as (Hcollapse & _ & _ & Hstored & _).
  split.
  - apply Hcollapse. reflexivity.
  - apply Hstored. reflexivity.
Defined.

(** C4: a refresh whose request fails does nothing.  A failed request
    never reaches the function given to [$.get], and an answer whose
    status is not "success" is dropped by it: the state is the same
    afterwards, so no effect was performed and [speeds] returns the table
    it returned before. *)
Theorem failed_refresh_changes_nothing (s : state) (data : response)
    (status : string) :
  status ≠ "success"%string →
  step RequestFailed s = s ∧
  estimateGasCost_callback data status s = (Normal tt, s) ∧
  step (RequestAnswered data status) s = s ∧
  (speeds (step RequestFailed s)).1 = (speeds s).1 ∧
  (speeds (step (RequestAnswered data status) s)).1 = (speeds s).1.
Proof.
  intros Hstatus.
  assert (H : estimateGasCost_callback data status s = (Normal tt, s)).
  { unfold estimateGasCost_callback.
    destruct (String.eqb_spec status "success"); [contradiction | reflexivity]. }
  simpl. unfold after. rewrite H. repeat split.
Qed.

Lemma failed_refresh_changes_nothing_witness :
  (speeds (step (RequestAnswered example_response "error") (started 7%nat))).1
  = (speeds (started 7%nat)).1.
Proof.
  apply (failed_refresh_changes_nothing (started 7%nat) example_response "error").
  discriminate.
Defined.

(** ** Reading prices *)

Lemma num_sub_num (a b : Z) : (num a - num b)%num = num (a - b).
Proof.
  unfold num_sub, num. f_equal.
  transitivity (Qred (inject_Z (a - b))).
  - apply Qred_complete. unfold inject_Z, Qminus, Qplus, Qopp, Qeq. simpl. lia.
  - apply Qcanon.Qred_identity. simpl. apply Z.gcd_1_r.
Qed.

Lemma truthy_num (z : Z) : truthy (num z) = negb (z =? 0).
Proof. reflexivity. Qed.

Lemma idealGasPriceInGwei_unfold (speed : option number) (s : state) :
  idealGasPriceInGwei speed s =
    let speed := if falsy speed then _currentSpeed s else default NaN speed in
    match array_get (_speeds s) (speed - num 1)%num with
    | Some e => (Normal (gwei e), s)
    | None => (Throw TypeError, s)
    end.
Proof.
  unfold idealGasPriceInGwei, speeds_at, mbind, M_bind, get_state, falsy.
  destruct speed as [t |]; simpl.
  - destruct (negb (truthy t)); destruct (array_get _ _); reflexivity.
  - destruct (array_get _ _); reflexivity.
Qed.

Lemma idealGasPrice_unfold (speed : option number) (s : state) :
  idealGasPrice speed s =
    match idealGasPriceInGwei speed s with
    | (Normal g, s') => (Normal (g * num 1000000000)%num, s')
    | (Throw e, s') => (Throw e, s')
    end.
Proof. reflexivity. Qed.

(** The price of a speed given by an integer from 1 on. *)
Lemma idealGasPriceInGwei_num (z : Z) (s : state) :
  1 <= z →
  idealGasPriceInGwei (Some (num z)) s =
    match mjoin (_speeds s !! Z.to_nat (z - 1)) with
    | Some e => (Normal (gwei e), s)
    | None => (Throw TypeError, s)
    end.
Proof.
  intros Hz. rewrite idealGasPriceInGwei_unfold. cbv zeta.
  unfold falsy. rewrite truthy_num.
  destruct (Z.eqb_spec z 0); [lia |]. simpl.
  rewrite num_sub_num. unfold array_get. rewrite array_index_num by lia.
  reflexivity.
Qed.

(** A price equal to 1 gwei is worth 1000000000 wei. *)
Lemma one_gwei_in_wei (g : number) :
  (g == num 1)%num = true → (g * num 1000000000)%num = num 1000000000.
Proof.
  destruct g as [| a | p]; try discriminate. unfold num_eqb, num_mul, num.
  intros H. apply Qeq_bool_iff in H. f_equal.
  transitivity (Qred (inject_Z 1000000000)).
  - apply Qred_complete. rewrite H. reflexivity.
  - reflexivity.
Qed.

(** C7: the four entries derived from a response carry the reported
    prices divided by 10 and the reported waiting times; [idealGasPrice]
    is [idealGasPriceInGwei] times 1000000000; and after a response that
    reports a safeLow of 10, the price of speed 1 is 1 gwei, 1000000000
    wei. *)
Theorem unit_conversion (r : response) (speed : option number) (s : state)
    (e1 e2 e3 e4 : speed_entry) :
  _speeds s = [Some e1; Some e2; Some e3; Some e4] →
  newSpeeds r =
    ({| gwei := (safeLow r / num 10)%num; wait := safeLowWait r |},
     {| gwei := (average r / num 10)%num; wait := avgWait r |},
     {| gwei := (fast r / num 10)%num; wait := fastWait r |},
     {| gwei := (fastest r / num 10)%num; wait := fastestWait r |}) ∧
  idealGasPrice speed s =
    match idealGasPriceInGwei speed s with
    | (Normal g, s') => (Normal (g * num 1000000000)%num, s')
    | (Throw e, s') => (Throw e, s')
    end ∧
  (safeLow r = num 10 →
     let s' := after (estimateGasCost_callback r "success") s in
     (∃ g, idealGasPriceInGwei (Some (num 1)) s' = (Normal g, s') ∧
           (g == num 1)%num = true) ∧
     (prices_differ e1 e2 e3 e4 (optimize (_optimized s) (newSpeeds r)) = true →
        idealGasPriceInGwei (Some (num 1)) s' = (Normal (num 1), s')) ∧
     idealGasPrice (Some (num 1)) s' = (Normal (num 1000000000), s')).
Proof.
  intros Htbl. split; [reflexivity |]. split; [apply idealGasPrice_unfold |].
  intros Hlow s'.
  assert (Hfirst : (optimize (_optimized s) (newSpeeds r)).1.1.1
                   = {| gwei := num 1; wait := safeLowWait r |}).
  { unfold optimize, newSpeeds. rewrite Hlow.
    replace (num 10 / num 10)%num with (num 1) by reflexivity.
    destruct (_optimized s); [destruct (_ == _)%num |]; reflexivity. }
  assert (Hs' : ∃ t1 t2 t3 t4,
             _speeds s' = [Some t1; Some t2; Some t3; Some t4] ∧
             (gwei t1 == num 1)%num = true ∧
             (prices_differ e1 e2 e3 e4 (optimize (_optimized s) (newSpeeds r)) = true →
              gwei t1 = num 1)).
  { unfold s', after. rewrite (answered_success r s e1 e2 e3 e4 Htbl). cbv zeta.
    destruct (optimize (_optimized s) (newSpeeds r)) as [[[c1 c2] c3] c4] eqn:Hnew.
    simpl in Hfirst. subst c1.
    destruct (prices_differ _ _ _ _ _) eqn:Hch.
    - exists {| gwei := num 1; wait := safeLowWait r |}, c2, c3, c4.
      repeat split.
    - exists e1, e2, e3, e4. split; [exact Htbl |]. split; [| discriminate].
      apply agreeing_prices_do_not_differ in Hch. unfold same_prices in Hch.
      rewrite !andb_true_iff in Hch. apply Hch. }
  destruct Hs' as (t1 & t2 & t3 & t4 & Htbl' & Hone & Hexact).
  assert (Hg : idealGasPriceInGwei (Some (num 1)) s' = (Normal (gwei t1), s')).
  { rewrite idealGasPriceInGwei_num by lia. rewrite Htbl'. reflexivity. }
  split; [exists (gwei t1); split; [exact Hg | exact Hone] |].
  split; [intros Hch; rewrite Hg, (Hexact Hch); reflexivity |].
  rewrite idealGasPrice_unfold, Hg, (one_gwei_in_wei _ Hone). reflexivity.
Qed.

Lemma unit_conversion_witness :
  idealGasPriceInGwei (Some (num 1)) after_first_answer
    = (Normal (num 1), after_first_answer) ∧
  idealGasPrice (Some (num 1)) after_first_answer
    = (Normal (num 1000000000), after_first_answer).
Proof.
  destruct (unit_conversion example_response None initial_state
              {| gwei := num 1; wait := Fin (71 # 10) |}
              {| gwei := num 5; wait := Fin (7 # 2) |}
              {| gwei := num 10; wait := Fin (1 # 2) |}
              {| gwei := num 20; wait := Fin (1 # 2) |} eq_refl)
    as (_ & _ & H).
  destruct (H eq_refl) as (_ & Hgwei & Hwei).
  split; [apply Hgwei; reflexivity | exact Hwei].
Defined.

(** C8: called without a speed, or with a falsy one (0, NaN),
    [idealGasPriceInGwei] answers as it does for the current speed, and so
    does [idealGasPrice]; after [setSpeed(3)], [idealGasPriceInGwei()] is
    [idealGasPriceInGwei(3)]. *)
Theorem default_speed_fallback (speed : option number) (s : state) :
  falsy speed = true →
  idealGasPriceInGwei speed s = idealGasPriceInGwei (Some (_currentSpeed s)) s ∧
  idealGasPrice speed s = idealGasPrice (Some (_currentSpeed s)) s ∧
  falsy None = true ∧ falsy (Some (num 0)) = true ∧ falsy (Some NaN) = true ∧
  (let s3 := after (setSpeed (num 3)) s in
   idealGasPriceInGwei None s3 = idealGasPriceInGwei (Some (num 3)) s3).
Proof.
  intros Hfalsy.
  assert (H : ∀ (a : option number) (x : state),
             falsy a = true →
             idealGasPriceInGwei a x = idealGasPriceInGwei (Some (_currentSpeed x)) x).
  { intros a x Ha. rewrite !idealGasPriceInGwei_unfold. cbv zeta. rewrite Ha.
    simpl. destruct (negb (truthy (_currentSpeed x))); reflexivity. }
  split; [apply H, Hfalsy |].
  split; [rewrite !idealGasPrice_unfold, (H speed s Hfalsy); reflexivity |].
  split; [reflexivity |]. split; [reflexivity |]. split; [reflexivity |].
  intros s3. rewrite (H None s3 eq_refl). f_equal.
  unfold s3, after. rewrite setSpeed_num. simpl. unfold speed_set. simpl.
  destruct (_suppressLogs s); reflexivity.
Qed.

Lemma default_speed_fallback_witness :
  idealGasPriceInGwei (Some (num 0)) initial_state
  = idealGasPriceInGwei (Some (_currentSpeed initial_state)) initial_state.
Proof. apply (default_speed_fallback (Some (num 0)) initial_state). reflexivity. Defined.

(** An index of the four-entry table, reached by subtracting 1, comes from
    one of the four speeds. *)
Lemma array_index_pred_tier (t : number) (i : nat) :
  array_index (t - num 1)%num = Some i → (i < 4)%nat → is_tier t = true.
Proof.
  destruct t as [| a | q]; unfold num_sub, num; try discriminate.
  unfold array_index. set (r := Qred (Qred (q - inject_Z 1))).
  destruct (Pos.eqb_spec (Qden r) 1) as [Hden |]; [| discriminate].
  destruct (Z.leb_spec 0 (Qnum r)) as [Hnum |]; [| discriminate].
  simpl. intros [= <-] Hi.
  assert (Hr : r == q - 1) by (unfold r; rewrite !Qred_correct; reflexivity).
  assert (Hz : r == inject_Z (Qnum r)).
  { unfold Qeq, inject_Z. simpl. rewrite Hden. lia. }
  unfold is_tier, num_eqb, num.
  assert (Hcases : Qnum r = 0 ∨ Qnum r = 1 ∨ Qnum r = 2 ∨ Qnum r = 3) by lia.
  destruct Hcases as [H | [H | [H | H]]]; rewrite H in Hz.
  - assert (E : Qeq_bool q (inject_Z 1) = true).
    { apply Qeq_bool_iff.
      change (inject_Z 0) with 0%Q in Hz. change (inject_Z 1) with 1%Q. lra. }
    rewrite E. reflexivity.
  - assert (E : Qeq_bool q (inject_Z 2) = true).
    { apply Qeq_bool_iff.
      change (inject_Z 1) with 1%Q in Hz. change (inject_Z 2) with 2%Q. lra. }
    rewrite E, ?orb_true_r. reflexivity.
  - assert (E : Qeq_bool q (inject_Z 3) = true).
    { apply Qeq_bool_iff.
      change (inject_Z 2) with 2%Q in Hz. change (inject_Z 3) with 3%Q. lra. }
    rewrite E, ?orb_true_r. reflexivity.
  - assert (E : Qeq_bool q (inject_Z 4) = true).
    { apply Qeq_bool_iff.
      change (inject_Z 3) with 3%Q in Hz. change (inject_Z 4) with 4%Q. lra. }
    rewrite E, ?orb_true_r. reflexivity.
Qed.

(** C9: for every speed given explicitly that is truthy and none of 1, 2,
    3, 4, the access [_speeds[speed-1]] falls outside a table of four
    entries and finds nothing; the member access on the missing entry
    throws, in [idealGasPriceInGwei] and so in [idealGasPrice]. *)
Theorem out_of_range_speed_finds_no_entry (t : number) (s : state) :
  length (_speeds s) = 4%nat →
  truthy t = true →
  is_tier t = false →
  array_get (_speeds s) (t - num 1)%num = None ∧
  idealGasPriceInGwei (Some t) s = (Throw TypeError, s) ∧
  idealGasPrice (Some t) s = (Throw TypeError, s).
Proof.
  intros Hlen Htruthy Htier.
  assert (Hget : array_get (_speeds s) (t - num 1)%num = None).
  { unfold array_get. destruct (array_index (t - num 1)%num) as [i |] eqn:Hi;
      [| reflexivity].
    destruct (Nat.lt_ge_cases i 4) as [Hlt | Hge].
    - rewrite (array_index_pred_tier t i Hi Hlt) in Htier. discriminate.
    - rewrite (proj2 (lookup_ge_None (_speeds s) i)) by lia. reflexivity. }
  assert (Hgwei : idealGasPriceInGwei (Some t) s = (Throw TypeError, s)).
  { rewrite idealGasPriceInGwei_unfold. cbv zeta. unfold falsy.
    rewrite Htruthy. simpl. rewrite Hget. reflexivity. }
  split; [exact Hget |]. split; [exact Hgwei |].
  rewrite idealGasPrice_unfold, Hgwei. reflexivity.
Qed.

Lemma out_of_range_speed_finds_no_entry_witness :
  idealGasPriceInGwei (Some (num 5)) initial_state = (Throw TypeError, initial_state) ∧
  idealGasPrice (Some (Fin (5 # 2))) initial_state = (Throw TypeError, initial_state).
Proof.
  split.
  - apply (out_of_range_speed_finds_no_entry (num 5) initial_state); reflexivity.
  - apply (out_of_range_speed_finds_no_entry (Fin (5 # 2)) initial_state); reflexivity.
Defined.

(** C10: every answered request with status "success" stores the response
    in [_details], whatever the comparison of the prices then gives (and
    even if it throws): so also when the prices are the stored ones, the
    table and the effects stay, and [_details] is the new response.  No
    operation of a refresh changes the current speed or the optimization
    flag. *)
Theorem refresh_frame (r : response) (s : state) :
  let s' := after (estimateGasCost_callback r "success") s in
  (details s').1 = Normal (Some r) ∧
  (∀ e1 e2 e3 e4,
     _speeds s = [Some e1; Some e2; Some e3; Some e4] →
     prices_differ e1 e2 e3 e4 (optimize (_optimized s) (newSpeeds r)) = false →
     _speeds s' = _speeds s ∧ effects s' = effects s ∧ _details s' = Some r) ∧
  (∀ o, is_refresh o = true →
     _currentSpeed (step o s) = _currentSpeed s ∧
     _optimized (step o s) = _optimized s).
Proof.
  intros s'. split; [| split].
  - assert (Hdet : _details s' = Some r).
    { apply (onGasPricesReceived_establishes (λ x, _details x = Some r)
               (λ _ _ H, H) (λ _ _ _ _ H, H) (λ _, True) r); [reflexivity | exact I]. }
    unfold details, mbind, M_bind, get_state. simpl. rewrite Hdet. reflexivity.
  - intros e1 e2 e3 e4 Htbl Hsame. unfold s', after.
    rewrite (answered_success r s e1 e2 e3 e4 Htbl). cbv zeta. rewrite Hsame.
    repeat split.
  - intros o Ho.
    assert (Hkeep : match o with CallSetSpeed _ | CallNextSpeed => False | _ => True end)
      by (destruct o; try discriminate; exact I).
    split.
    + apply (currentSpeed_kept_by_step (λ c, c = _currentSpeed s) o Hkeep). reflexivity.
    + destruct o; try discriminate; simpl; try reflexivity.
      unfold estimateGasCost_callback.
      destruct (String.eqb status "success"); [| reflexivity].
      apply (onGasPricesReceived_establishes (λ x, _optimized x = _optimized s)
               (λ _ _ H, H) (λ _ _ _ _ H, H) (λ x, x = s) data); [| reflexivity].
      intros x ->. reflexivity.
Qed.

(** An answer with the prices already stored: [details] returns the new
    response, the table is the one stored before. *)
Lemma refresh_frame_witness :
  (details after_first_answer).1 = Normal (Some example_response) ∧
  (details after_second_answer).1 = Normal (Some example_response_slower) ∧
  _speeds after_second_answer = _speeds after_first_answer ∧
  effects after_second_answer = effects after_first_answer ∧
  _currentSpeed (step TimerTick after_first_answer) = _currentSpeed after_first_answer.
Proof.
  split; [apply (refresh_frame example_response initial_state) |].
  split; [apply (refresh_frame example_response_slower after_first_answer) |].
  destruct (refresh_frame example_response_slower after_first_answer)
    as (_ & Hsame & _).
  destruct (Hsame {| gwei := num 1; wait := Fin (16 # 5) |}
                  {| gwei := num 1; wait := Fin (16 # 5) |}
                  {| gwei := num 8; wait := Fin (1 # 2) |}
                  {| gwei := num 8; wait := Fin (1 # 2) |} eq_refl eq_refl)
    as (Htbl & Heff & _).
  split; [exact Htbl |]. split; [exact Heff |].
  apply (refresh_frame example_response after_first_answer). reflexivity.
Defined.

(** ** The operations one by one *)

(** The functions that read leave the state as it is, also when they
    throw. *)
Lemma read_keeps_state (o : operation) (s : state) :
  is_read o = true → step o s = s.
Proof.
  destruct o; try discriminate; intros _; simpl; unfold after.
  - reflexivity.
  - rewrite idealGasPrice_unfold, idealGasPriceInGwei_unfold. cbv zeta.
    destruct (array_get _ _); reflexivity.
  - rewrite idealGasPriceInGwei_unfold. cbv zeta.
    destruct (array_get _ _); reflexivity.
  - reflexivity.
  - reflexivity.
Qed.

Lemma currentWait_unfold (s : state) :
  currentWait s =
    match array_get (_speeds s) (_currentSpeed s - num 1)%num with
    | Some e => (Normal (wait e), s)
    | None => (Throw TypeError, s)
    end.
Proof.
  unfold currentWait, speeds_at, mbind, M_bind, get_state.
  destruct (array_get _ _); reflexivity.
Qed.

Lemma init_unfold (f : option callback) (minutes : option number)
    (suppress : bool) (s : state) :
  after (init f minutes suppress) s =
    {| _speeds := _speeds s;
       _currentSpeed := _currentSpeed s;
       _onNewSpeedCallback := f;
       _suppressLogs := suppress;
       _optimized := _optimized s;
       _details := _details s;
       effects :=
         (effects s ++ (if suppress then [] else [ConsoleLog MsgInitializing]))
         ++ [HttpGet gasStationUrl; SetInterval (init_period minutes)] |}.
Proof.
  assert (Hp : init_period minutes =
               (num 1000 * num 60 *
                match minutes with
                | Some n => if truthy n then n else defaultIntervalInMinutes
                | None => defaultIntervalInMinutes
                end)%num).
  { unfold init_period, falsy. destruct minutes as [n |]; [| reflexivity].
    destruct (truthy n); reflexivity. }
  rewrite Hp. unfold after, init, estimateGasCost.
  cbv [mbind M_bind modify get_state log perform skip mret M_ret].
  destruct suppress; simpl; unfold add_effect; simpl;
    rewrite <- ?app_assoc, ?app_nil_r; reflexivity.
Qed.

Lemma optimized_unfold (flag : bool) (s : state) :
  after (optimized flag) s =
    let s' := set_optimized flag s in
    if _suppressLogs s then s' else add_effect (ConsoleLog (MsgOptimized flag)) s'.
Proof.
  unfold after, optimized.
  cbv [mbind M_bind modify get_state log perform skip mret M_ret].
  simpl. destruct (_suppressLogs s); reflexivity.
Qed.

(** ** The table and the reads over the runs *)

(** X1: in every state the module can reach, whatever the answers and the
    arguments were, the table has exactly four slots and each holds an
    entry; [speeds] returns this table. *)
Theorem table_always_has_four_entries (s : state) :
  reachable s →
  length (_speeds s) = 4%nat ∧
  (∀ i, (i < 4)%nat → ∃ e, _speeds s !! i = Some (Some e)) ∧
  speeds s = (Normal (_speeds s), s).
Proof.
  intros Hs. destruct (reachable_table_ok s Hs) as (e1 & e2 & e3 & e4 & Htbl).
  split; [rewrite Htbl; reflexivity |]. split; [| reflexivity].
  intros i Hi. rewrite Htbl.
  destruct i as [| [| [| [| i]]]]; simpl; eauto. lia.
Qed.

Lemma table_always_has_four_entries_witness :
  length (_speeds (run [CallInit None None false;
                        RequestAnswered example_response "success";
                        CallSetSpeed NaN;
                        RequestAnswered response_with_default_prices "success"]
                     initial_state)) = 4%nat.
Proof.
  apply table_always_has_four_entries. eexists. reflexivity.
Defined.

Lemma tier_after_run (ops : list operation) (s : state) :
  Forall integer_argument ops →
  _currentSpeed s ∈ [num 1; num 2; num 3; num 4] →
  _currentSpeed (run ops s) ∈ [num 1; num 2; num 3; num 4].
Proof.
  induction ops as [| o ops IH] using rev_ind; intros Hops Hs; [exact Hs |].
  apply Forall_app in Hops as [Hops Ho]. rewrite run_snoc.
  apply tier_kept_by_step; [apply Forall_inv in Ho; exact Ho | apply IH; assumption].
Qed.

Lemma table_after_run (ops : list operation) (s : state) :
  table_ok s → table_ok (run ops s).
Proof.
  induction ops as [| o ops IH] using rev_ind; intros Hs; [exact Hs |].
  rewrite run_snoc. apply table_kept_by_step, IH, Hs.
Qed.

(** The entry of a speed among 1, 2, 3, 4 in a table with its four
    entries. *)
Lemma entry_of_tier (t : number) (s : state) :
  table_ok s → t ∈ [num 1; num 2; num 3; num 4] →
  ∃ e, array_get (_speeds s) (t - num 1)%num = Some e.
Proof.
  intros (e1 & e2 & e3 & e4 & Htbl) Ht. rewrite Htbl.
  repeat (apply elem_of_cons in Ht as [-> | Ht]);
    [| | | | apply elem_of_nil in Ht; contradiction];
    rewrite num_sub_num; unfold array_get; rewrite array_index_num by lia;
    simpl; eauto.
Qed.

(** X2: as long as [setSpeed] was only ever called with integers, the
    reads of the current speed never throw: [idealGasPriceInGwei()],
    [idealGasPrice()] and [currentWait()] return the price, the price
    times 1000000000 and the waiting time of the entry of the current
    speed. *)
Theorem reads_succeed_on_integer_runs (ops : list operation) :
  Forall integer_argument ops →
  ∃ e, array_get (_speeds (run ops initial_state))
         (_currentSpeed (run ops initial_state) - num 1)%num = Some e ∧
       idealGasPriceInGwei None (run ops initial_state)
         = (Normal (gwei e), run ops initial_state) ∧
       idealGasPrice None (run ops initial_state)
         = (Normal (gwei e * num 1000000000)%num, run ops initial_state) ∧
       currentWait (run ops initial_state)
         = (Normal (wait e), run ops initial_state).
Proof.
  intros Hops. set (s := run ops initial_state).
  assert (Htier : _currentSpeed s ∈ [num 1; num 2; num 3; num 4]).
  { apply tier_after_run; [exact Hops |]. simpl. repeat constructor. }
  assert (Htbl : table_ok s) by (apply reachable_table_ok; eexists; reflexivity).
  destruct (entry_of_tier _ s Htbl Htier) as [e He].
  assert (Hg : idealGasPriceInGwei None s = (Normal (gwei e), s)).
  { rewrite idealGasPriceInGwei_unfold. simpl. rewrite He. reflexivity. }
  exists e. split; [exact He |]. split; [exact Hg |]. split.
  - rewrite idealGasPrice_unfold, Hg. reflexivity.
  - rewrite currentWait_unfold, He. reflexivity.
Qed.

Lemma reads_succeed_on_integer_runs_witness :
  ∃ e, array_get (_speeds (run [CallSetSpeed (num 4); CallNextSpeed;
                                RequestAnswered example_response "success"]
                             initial_state))
         (_currentSpeed (run [CallSetSpeed (num 4); CallNextSpeed;
                              RequestAnswered example_response "success"]
                           initial_state) - num 1)%num = Some e.
Proof.
  destruct (reads_succeed_on_integer_runs
              [CallSetSpeed (num 4); CallNextSpeed;
               RequestAnswered example_response "success"]) as (e & He & _).
  - repeat (apply Forall_cons; split; [first [exact I | eexists; reflexivity] |]).
    apply Forall_nil. exact I.
  - exists e. exact He.
Defined.

Lemma array_get_pred_none {A : Type} (l : list (option A)) (t : number) :
  length l = 4%nat → is_tier t = false → array_get l (t - num 1)%num = None.
Proof.
  intros Hlen Ht. unfold array_get.
  destruct (array_index (t - num 1)%num) as [i |] eqn:Hi; [| reflexivity].
  destruct (Nat.lt_ge_cases i 4) as [Hlt | Hge].
  - rewrite (array_index_pred_tier t i Hi Hlt) in Ht. discriminate.
  - rewrite (proj2 (lookup_ge_None l i)) by lia. reflexivity.
Qed.

(** X3: a speed that [setSpeed] accepts and that is none of 1, 2, 3, 4 (a
    fraction between 1 and 4, or NaN) makes every later read of the
    current speed throw: [idealGasPriceInGwei()], [idealGasPrice()] and
    [currentWait()] find no entry. *)
Theorem accepted_non_tier_breaks_reads (t : number) (s : state) :
  length (_speeds s) = 4%nat →
  (setSpeed t s).1 = Normal true →
  is_tier t = false →
  idealGasPriceInGwei None (after (setSpeed t) s)
    = (Throw TypeError, after (setSpeed t) s) ∧
  idealGasPrice None (after (setSpeed t) s)
    = (Throw TypeError, after (setSpeed t) s) ∧
  currentWait (after (setSpeed t) s)
    = (Throw TypeError, after (setSpeed t) s).
Proof.
  intros Hlen Hacc Ht. unfold after in *. rewrite setSpeed_unfold in *.
  destruct (_ || _); [discriminate |]. simpl.
  set (s' := speed_set t s).
  assert (Hcur : _currentSpeed s' = t)
    by (unfold s', speed_set; simpl; destruct (_suppressLogs s); reflexivity).
  assert (Htbl : _speeds s' = _speeds s)
    by (unfold s', speed_set; simpl; destruct (_suppressLogs s); reflexivity).
  assert (Hget : array_get (_speeds s') (_currentSpeed s' - num 1)%num = None).
  { rewrite Hcur, Htbl. apply array_get_pred_none; assumption. }
  assert (Hg : idealGasPriceInGwei None s' = (Throw TypeError, s')).
  { rewrite idealGasPriceInGwei_unfold. simpl. rewrite Hget. reflexivity. }
  split; [exact Hg |]. split.
  - rewrite idealGasPrice_unfold, Hg. reflexivity.
  - rewrite currentWait_unfold, Hget. reflexivity.
Qed.

Lemma accepted_non_tier_breaks_reads_witness :
  idealGasPrice None (after (setSpeed (Fin (5 # 2))) initial_state)
    = (Throw TypeError, after (setSpeed (Fin (5 # 2))) initial_state) ∧
  currentWait (after (setSpeed NaN) initial_state)
    = (Throw TypeError, after (setSpeed NaN) initial_state).
Proof.
  split.
  - apply (accepted_non_tier_breaks_reads (Fin (5 # 2)) initial_state); reflexivity.
  - apply (accepted_non_tier_breaks_reads NaN initial_state); reflexivity.
Defined.

(** ** Cycling with [nextSpeed] *)

Lemma nextSpeed_on_tier (k : Z) (s : state) :
  _currentSpeed s = num k → 1 <= k <= 4 →
  (nextSpeed s).1 = Normal (num (if k =? 4 then 1 else if k =? 3 then 3 else k + 1)) ∧
  _currentSpeed (after nextSpeed s)
    = num (if k =? 4 then 1 else if k =? 3 then 3 else k + 1).
Proof.
  intros Hk Hrange. unfold after. rewrite nextSpeed_unfold. cbv zeta.
  unfold after. simpl. rewrite Hk.
  assert (k = 1 ∨ k = 2 ∨ k = 3 ∨ k = 4) as [-> | [-> | [-> | ->]]] by lia.
  - replace ((num 1 + num 1) mod num 4)%num with (num 2) by reflexivity.
    rewrite setSpeed_num. unfold speed_set. simpl.
    destruct (_suppressLogs s); split; reflexivity.
  - replace ((num 2 + num 1) mod num 4)%num with (num 3) by reflexivity.
    rewrite setSpeed_num. unfold speed_set. simpl.
    destruct (_suppressLogs s); split; reflexivity.
  - replace ((num 3 + num 1) mod num 4)%num with (num 0) by reflexivity.
    rewrite setSpeed_num. simpl. split; [rewrite Hk |]; assumption || reflexivity.
  - replace ((num 4 + num 1) mod num 4)%num with (num 1) by reflexivity.
    rewrite setSpeed_num. unfold speed_set. simpl.
    destruct (_suppressLogs s); split; reflexivity.
Qed.

Lemma tier_is_num (t : number) :
  t ∈ [num 1; num 2; num 3; num 4] → ∃ k, t = num k ∧ 1 <= k <= 4.
Proof.
  intros Ht. repeat (apply elem_of_cons in Ht as [-> | Ht]);
    [exists 1 | exists 2 | exists 3 | exists 4 | apply elem_of_nil in Ht; contradiction];
    split; reflexivity || lia.
Qed.

Lemma run_cons (o : operation) (ops : list operation) (s : state) :
  run (o :: ops) s = run ops (step o s).
Proof. reflexivity. Qed.

Lemma nextSpeed_stays_at_3 (n : nat) (s : state) :
  _currentSpeed s = num 3 →
  _currentSpeed (run (replicate n CallNextSpeed) s) = num 3.
Proof.
  revert s. induction n as [| n IH]; intros s Hs; [exact Hs |].
  simpl replicate. rewrite run_cons. apply IH.
  apply (nextSpeed_on_tier 3 s Hs). lia.
Qed.

(** X4: starting from any of the speeds 1, 2, 3, 4, [nextSpeed] never
    returns 4, and three calls or more leave the current speed at 3: the
    selection does not cycle, it settles. *)
Theorem nextSpeed_settles_at_3 (n : nat) (s : state) :
  _currentSpeed s ∈ [num 1; num 2; num 3; num 4] →
  (nextSpeed s).1 ≠ Normal (num 4) ∧
  ((3 ≤ n)%nat → _currentSpeed (run (replicate n CallNextSpeed) s) = num 3).
Proof.
  intros Hs. destruct (tier_is_num _ Hs) as (k & Hk & Hrange). split.
  - rewrite (proj1 (nextSpeed_on_tier k s Hk Hrange)).
    assert (k = 1 ∨ k = 2 ∨ k = 3 ∨ k = 4) as [-> | [-> | [-> | ->]]] by lia;
      simpl; discriminate.
  - intros Hn. destruct n as [| [| [| n]]]; try lia.
    simpl replicate. rewrite !run_cons. apply nextSpeed_stays_at_3.
    set (s1 := step CallNextSpeed s).
    set (s2 := step CallNextSpeed s1).
    destruct (nextSpeed_on_tier k s Hk Hrange) as [_ H1]. fold (step CallNextSpeed s) in H1.
    fold s1 in H1.
    assert (k = 1 ∨ k = 2 ∨ k = 3 ∨ k = 4) as [-> | [-> | [-> | ->]]] by lia;
      simpl in H1.
    + destruct (nextSpeed_on_tier 2 s1 H1 ltac:(lia)) as [_ H2].
      apply (nextSpeed_on_tier 3 s2 H2). lia.
    + destruct (nextSpeed_on_tier 3 s1 H1 ltac:(lia)) as [_ H2].
      apply (nextSpeed_on_tier 3 s2 H2). lia.
    + destruct (nextSpeed_on_tier 3 s1 H1 ltac:(lia)) as [_ H2].
      apply (nextSpeed_on_tier 3 s2 H2). lia.
    + destruct (nextSpeed_on_tier 1 s1 H1 ltac:(lia)) as [_ H2].
      destruct (nextSpeed_on_tier 2 s2 H2 ltac:(lia)) as [_ H3]. exact H3.
Qed.

Lemma nextSpeed_settles_at_3_witness :
  _currentSpeed (run (replicate 5 CallNextSpeed) (after (setSpeed (num 4)) initial_state))
  = num 3.
Proof.
  apply (nextSpeed_settles_at_3 5 (after (setSpeed (num 4)) initial_state)).
  - simpl. repeat constructor.
  - lia.
Defined.

(** ** The effects of a run *)

Lemma count_events_app (p : event → bool) (l1 l2 : list event) :
  count_events p (l1 ++ l2) = (count_events p l1 + count_events p l2)%nat.
Proof. induction l1 as [| e l1 IH]; simpl; [reflexivity | rewrite IH; lia]. Qed.

Lemma count_ops_app (p : operation → bool) (l1 l2 : list operation) :
  count_ops p (l1 ++ l2) = (count_ops p l1 + count_ops p l2)%nat.
Proof. induction l1 as [| o l1 IH]; simpl; [reflexivity | rewrite IH; lia]. Qed.

(** What one operation adds to the effects, and what it does to the
    logging flag and to [_details]. *)
Lemma step_summary (o : operation) (s : state) :
  table_ok s →
  ∃ logs notes,
    effects (step o s) = ((effects s ++ logs) ++ scheduling o) ++ notes ∧
    (logs = [] ∨ (silent o s = false ∧ ∃ m, logs = [ConsoleLog m])) ∧
    (notes = [] ∨
     (is_successful_answer o = true ∧
      ∃ f, _onNewSpeedCallback s = Some f ∧ notes = [Call f []])) ∧
    _suppressLogs (step o s) = silent o s ∧
    _details (step o s) =
      match o with
      | RequestAnswered data status =>
          if String.eqb status "success" then Some data else _details s
      | _ => _details s
      end.
Proof.
  intros (e1 & e2 & e3 & e4 & Htbl).
  destruct o.
  - (* init *)
    simpl step. rewrite init_unfold. cbn [effects _suppressLogs _details silent scheduling].
    exists (if suppress then [] else [ConsoleLog MsgInitializing]), [].
    rewrite app_nil_r. split; [reflexivity |].
    split; [destruct suppress; [left | right; split; [| eexists]]; reflexivity |].
    split; [left; reflexivity |]. split; reflexivity.
  - rewrite read_keeps_state by reflexivity.
    exists [], []. rewrite !app_nil_r. auto.
  - rewrite read_keeps_state by reflexivity.
    exists [], []. rewrite !app_nil_r. auto.
  - rewrite read_keeps_state by reflexivity.
    exists [], []. rewrite !app_nil_r. auto.
  - (* nextSpeed *)
    cbn [step silent scheduling is_successful_answer]. unfold after.
    rewrite nextSpeed_unfold. cbv zeta. unfold after. cbn [snd].
    rewrite setSpeed_unfold. destruct (_ || _); cbn [snd].
    + exists [], []. rewrite !app_nil_r. auto.
    + unfold speed_set. destruct (_suppressLogs s) eqn:Hsup; cbn.
      * exists [], []. rewrite !app_nil_r. auto.
      * eexists [_], []. rewrite !app_nil_r.
        split; [reflexivity |]. split; [right; split; [| eexists]; reflexivity |]. auto.
  - (* setSpeed *)
    cbn [step silent scheduling is_successful_answer]. unfold after.
    rewrite setSpeed_unfold. destruct (_ || _); cbn [snd].
    + exists [], []. rewrite !app_nil_r. auto.
    + unfold speed_set. destruct (_suppressLogs s) eqn:Hsup; cbn.
      * exists [], []. rewrite !app_nil_r. auto.
      * eexists [_], []. rewrite !app_nil_r.
        split; [reflexivity |]. split; [right; split; [| eexists]; reflexivity |]. auto.
  - rewrite read_keeps_state by reflexivity.
    exists [], []. rewrite !app_nil_r. auto.
  - (* optimized *)
    cbn [step silent scheduling is_successful_answer]. rewrite optimized_unfold. cbv zeta.
    destruct (_suppressLogs s) eqn:Hsup; cbn.
    + exists [], []. rewrite !app_nil_r. auto.
    + eexists [_], []. rewrite !app_nil_r.
      split; [reflexivity |]. split; [right; split; [| eexists]; reflexivity |]. auto.
  - rewrite read_keeps_state by reflexivity.
    exists [], []. rewrite !app_nil_r. auto.
  - (* a tick of the timer *)
    cbn. exists [], []. rewrite !app_nil_r. auto.
  - (* an answer *)
    cbn [step silent scheduling is_successful_answer]. unfold after, estimateGasCost_callback.
    destruct (String.eqb status "success") eqn:Hst; cbn [snd].
    + rewrite (onGasPricesReceived_table data s e1 e2 e3 e4 Htbl). cbv zeta.
      destruct (optimize (_optimized s) (newSpeeds data)) as [[[c1 c2] c3] c4].
      destruct (prices_differ _ _ _ _ _); cbn.
      * exists (if _suppressLogs s then []
                else [ConsoleLog (MsgNewSpeedLimits (gwei c1) (gwei c2)
                                    (gwei c3) (gwei c4))]),
               (match _onNewSpeedCallback s with Some f => [Call f []] | None => [] end).
        rewrite app_nil_r. split; [reflexivity |].
        split; [destruct (_suppressLogs s); [left | right; split; [| eexists]]; reflexivity |].
        split; [| auto].
        destruct (_onNewSpeedCallback s) as [f |]; [right | left; reflexivity].
        split; [reflexivity | exists f; auto].
      * exists [], []. rewrite !app_nil_r. auto.
    + exists [], []. rewrite !app_nil_r. auto.
  - cbn. exists [], []. rewrite !app_nil_r. auto.
Qed.

Lemma step_counts (o : operation) (s : state) :
  table_ok s →
  count_events is_set_interval (effects (step o s))
    = (count_events is_set_interval (effects s) + (if is_init o then 1 else 0))%nat ∧
  count_events is_http_get (effects (step o s))
    = (count_events is_http_get (effects s)
       + (if is_init o || is_tick o then 1 else 0))%nat ∧
  (count_events is_call (effects (step o s))
    ≤ count_events is_call (effects s)
      + (if is_successful_answer o then 1 else 0))%nat ∧
  (silent o s = true →
   count_events is_console_log (effects (step o s))
     = count_events is_console_log (effects s)).
Proof.
  intros Htbl.
  destruct (step_summary o s Htbl) as (logs & notes & Heff & Hlogs & Hnotes & _).
  rewrite Heff, !count_events_app.
  assert (Hl : count_events is_set_interval logs = 0%nat ∧
               count_events is_http_get logs = 0%nat ∧
               count_events is_call logs = 0%nat ∧
               (silent o s = true → count_events is_console_log logs = 0%nat)).
  { destruct Hlogs as [-> | (Hs & m & ->)]; simpl; repeat split; auto.
    rewrite Hs. discriminate. }
  assert (Hn : count_events is_set_interval notes = 0%nat ∧
               count_events is_http_get notes = 0%nat ∧
               count_events is_console_log notes = 0%nat ∧
               (count_events is_call notes
                ≤ if is_successful_answer o then 1 else 0)%nat).
  { destruct Hnotes as [-> | (Hs & f & _ & ->)]; simpl; repeat split; auto; try lia.
    rewrite Hs. lia. }
  destruct Hl as (L1 & L2 & L3 & L4), Hn as (N1 & N2 & N3 & N4).
  rewrite L1, L2, L3, N1, N2, N3.
  destruct o; simpl in *; repeat split; try lia; intros Hs; rewrite (L4 Hs); lia.
Qed.

(** X5: over every run of the module, each [init] sets one more timer
    going and each [init] and each tick of a timer sends one request, so
    that calling [init] again adds a timer to the ones that run; the host
    function is invoked at most once per answer let through, and by
    nothing else. *)
Theorem effects_accounting (ops : list operation) :
  count_events is_set_interval (effects (run ops initial_state))
    = count_ops is_init ops ∧
  count_events is_http_get (effects (run ops initial_state))
    = (count_ops is_init ops + count_ops is_tick ops)%nat ∧
  (count_events is_call (effects (run ops initial_state))
    ≤ count_ops is_successful_answer ops)%nat.
Proof.
  induction ops as [| o ops (IH1 & IH2 & IH3)] using rev_ind.
  - simpl. repeat split; lia.
  - rewrite run_snoc, !count_ops_app. simpl count_ops.
    assert (Htbl : table_ok (run ops initial_state))
      by (apply reachable_table_ok; eexists; reflexivity).
    destruct (step_counts o (run ops initial_state) Htbl) as (H1 & H2 & H3 & _).
    rewrite H1, H2, IH1, IH2. revert H3.
    destruct o; simpl; try destruct (String.eqb status "success");
      intros H3; repeat split; lia.
Qed.

(** X6: when the module is started with [init(f, minutes, true)] and
    every later [init] also asks for silence, nothing is ever written to
    the console, whatever else is called and whatever answers arrive. *)
Theorem suppressed_logs_stay_silent (f : option callback)
    (minutes : option number) (ops : list operation) :
  Forall inits_suppress ops →
  count_events is_console_log
    (effects (run (CallInit f minutes true :: ops) initial_state)) = 0%nat ∧
  _suppressLogs (run (CallInit f minutes true :: ops) initial_state) = true.
Proof.
  intros Hops. rewrite run_cons.
  set (s0 := step (CallInit f minutes true) initial_state).
  assert (H0 : count_events is_console_log (effects s0) = 0%nat ∧
               _suppressLogs s0 = true ∧ table_ok s0).
  { unfold s0. simpl step. rewrite init_unfold. simpl.
    repeat split. do 4 eexists. reflexivity. }
  clearbody s0. revert H0.
  induction ops as [| o ops IH] using rev_ind; intros (Hc & Hs & Ht).
  - simpl. auto.
  - apply Forall_app in Hops as [Hops Ho]. apply Forall_inv in Ho.
    rewrite run_snoc.
    destruct (IH Hops (conj Hc (conj Hs Ht))) as [IHc IHs].
    assert (Htbl : table_ok (run ops s0)) by (apply table_after_run, Ht).
    assert (Hsil : silent o (run ops s0) = true).
    { destruct o; simpl in *; auto. }
    destruct (step_counts o (run ops s0) Htbl) as (_ & _ & _ & Hlog).
    destruct (step_summary o (run ops s0) Htbl) as (_ & _ & _ & _ & _ & Hsup & _).
    rewrite (Hlog Hsil), Hsup. auto.
Qed.

Lemma suppressed_logs_stay_silent_witness :
  count_events is_console_log
    (effects (run [CallInit (Some 7%nat) None true; CallSetSpeed (num 3);
                   RequestAnswered example_response "success"; CallOptimized false;
                   CallNextSpeed]
                initial_state)) = 0%nat.
Proof.
  apply (suppressed_logs_stay_silent (Some 7%nat) None
           [CallSetSpeed (num 3); RequestAnswered example_response "success";
            CallOptimized false; CallNextSpeed]).
  repeat (apply Forall_cons; split; [exact I |]). apply Forall_nil. exact I.
Defined.

(** X7: [details] returns the body of the last answer of the run that
    came with status "success", and nothing before the first one: no
    other operation, failed request or answer with another status touches
    it. *)
Theorem details_is_last_answer (ops : list operation) :
  details (run ops initial_state)
  = (Normal (last_answer None ops), run ops initial_state).
Proof.
  assert (H : ∀ s, table_ok s → _details (run ops s) = last_answer (_details s) ops).
  { induction ops as [| o ops IH]; intros s Hs; [reflexivity |].
    rewrite run_cons, (IH (step o s) (table_kept_by_step o s Hs)).
    destruct (step_summary o s Hs) as (_ & _ & _ & _ & _ & _ & Hdet).
    rewrite Hdet. destruct o; reflexivity. }
  unfold details, mbind, M_bind, get_state. simpl.
  rewrite (H initial_state) by (do 4 eexists; reflexivity). reflexivity.
Qed.

(** X8: the reads are transparent: dropping every call of [currentSpeed],
    [idealGasPrice], [idealGasPriceInGwei], [speeds] and [details] from a
    run, also those that threw, leads to the same state. *)
Theorem reads_are_transparent (ops : list operation) (s : state) :
  run (without_reads ops) s = run ops s.
Proof.
  revert s. induction ops as [| o ops IH]; intros s; [reflexivity |].
  simpl without_reads. destruct (is_read o) eqn:Ho.
  - rewrite run_cons, (read_keeps_state o s Ho). apply IH.
  - rewrite !run_cons. apply IH.
Qed.

(** ** Starting the module *)

Lemma num_mul_num (a b : Z) : (num a * num b)%num = num (a * b).
Proof.
  unfold num_mul, num. f_equal.
  transitivity (Qred (inject_Z (a * b))).
  - apply Qred_complete. unfold inject_Z, Qmult, Qeq. simpl. lia.
  - apply Qcanon.Qred_identity. simpl. apply Z.gcd_1_r.
Qed.

Lemma Qred_num_zero (q : Q) : Qnum (Qred q) = 0 → Qnum q = 0.
Proof.
  intros H. pose proof (Qred_correct q) as E. unfold Qeq in E.
  rewrite H in E. simpl in E. lia.
Qed.

Lemma truthy_times_60000 (x : number) :
  truthy x = true → truthy (num 60000 * x)%num = true.
Proof.
  destruct x as [| a | q]; [discriminate | destruct a; reflexivity |].
  unfold truthy, num_mul, num, Qis_zero. intros Hq.
  destruct (Z.eqb_spec (Qnum (Qred (inject_Z 60000 * q))) 0) as [E |]; [| reflexivity].
  apply Qred_num_zero in E. simpl in E.
  destruct (Z.eqb_spec (Qnum q) 0); [discriminate | lia].
Qed.

(** X9: [init] ends by sending one request and setting one timer going,
    whose period is never zero nor NaN: 60000 ms times the minutes asked
    for, and 180000 ms when the minutes are omitted, 0 or NaN. *)
Theorem init_timer_period (f : option callback) (minutes : option number)
    (suppress : bool) (s : state) :
  ∃ before period,
    effects (after (init f minutes suppress) s)
      = before ++ [HttpGet gasStationUrl; SetInterval period] ∧
    truthy period = true ∧
    (falsy minutes = true → period = num 180000) ∧
    (∀ z, minutes = Some (num z) → z ≠ 0 → period = num (60000 * z)).
Proof.
  rewrite init_unfold. simpl. eexists _, (init_period minutes).
  split; [reflexivity |]. unfold init_period.
  replace (num 1000 * num 60)%num with (num 60000) by reflexivity.
  split; [| split].
  - apply truthy_times_60000. unfold falsy.
    destruct minutes as [n |]; [| reflexivity].
    simpl. destruct (truthy n) eqn:Hn; simpl; [exact Hn | reflexivity].
  - intros ->. reflexivity.
  - intros z -> Hz. unfold falsy. rewrite truthy_num.
    destruct (Z.eqb_spec z 0); [contradiction |]. simpl. apply num_mul_num.
Qed.

Lemma init_timer_period_witness :
  ∃ before period,
    effects (after (init None (Some (num 0)) true) initial_state)
      = before ++ [HttpGet gasStationUrl; SetInterval period] ∧
    period = num 180000.
Proof.
  destruct (init_timer_period None (Some (num 0)) true initial_state)
    as (before & period & Heff & _ & Hdefault & _).
  exists before, period. split; [exact Heff | apply Hdefault; reflexivity].
Defined.

(** ** Switching the optimization *)

(** X10: switching the optimization off shows at the next answer, even
    when the station reports what it reported before.  After an answer
    with equal waiting times and different prices for fast and fastest,
    received optimized, [optimized(false)] leaves the table as it is; the
    same answer once more then counts as new prices: the fastest entry
    gets its own price and the host function is invoked again. *)
Theorem optimization_switch_shows_at_next_answer (s : state) (r : response)
    (f : callback) (e1 e2 e3 e4 : speed_entry) :
  _speeds s = [Some e1; Some e2; Some e3; Some e4] →
  _onNewSpeedCallback s = Some f →
  _optimized s = true →
  (fastestWait r == fastWait r)%num = true →
  (fast r / num 10 != fastest r / num 10)%num = true →
  let s1 := after (estimateGasCost_callback r "success") s in
  let s2 := after (optimized false) s1 in
  let s3 := after (estimateGasCost_callback r "success") s2 in
  _speeds s2 = _speeds s1 ∧
  _speeds s3 = table_of (newSpeeds r) ∧
  calls (effects s3) = S (calls (effects s2)).
Proof.
  intros Htbl Hcb Hopt Hwait Hprice s1 s2 s3.
  (* the table after the first answer *)
  assert (H1 : ∃ t1 t2 t3 t4,
             _speeds s1 = [Some t1; Some t2; Some t3; Some t4] ∧
             (gwei t4 != fastest r / num 10)%num = true ∧
             _onNewSpeedCallback s1 = Some f).
  { unfold s1, after. rewrite (answered_success r s e1 e2 e3 e4 Htbl). cbv zeta.
    rewrite Hopt. unfold optimize, newSpeeds. simpl wait. rewrite Hwait.
    destruct (prices_differ _ _ _ _ _) eqn:Hch.
    - do 4 eexists. split; [reflexivity |]. split; [exact Hprice | exact Hcb].
    - exists e1, e2, e3, e4. split; [exact Htbl |]. split; [| exact Hcb].
      unfold prices_differ in Hch. simpl in Hch.
      apply orb_false_iff in Hch as [_ H4]. unfold num_neb in *.
      apply negb_false_iff in H4. apply negb_true_iff in Hprice.
      apply negb_true_iff.
      destruct (gwei e4 == fastest r / num 10)%num eqn:E; [| reflexivity].
      rewrite num_eqb_sym in H4.
      rewrite (num_eqb_trans _ _ _ H4 E) in Hprice. discriminate. }
  destruct H1 as (t1 & t2 & t3 & t4 & Htbl1 & Hdiff & Hcb1).
  assert (H2 : _speeds s2 = _speeds s1 ∧ _optimized s2 = false ∧
               _onNewSpeedCallback s2 = Some f).
  { unfold s2. rewrite optimized_unfold. cbv zeta.
    destruct (_suppressLogs s1); simpl; auto. }
  destruct H2 as (Htbl2 & Hopt2 & Hcb2).
  split; [exact Htbl2 |].
  rewrite Htbl1 in Htbl2.
  assert (Hs3 : s3 = refreshed r (newSpeeds r) s2).
  { unfold s3, after. rewrite (answered_success r s2 t1 t2 t3 t4 Htbl2). cbv zeta.
    rewrite Hopt2. simpl optimize.
    assert (Hch : prices_differ t1 t2 t3 t4 (newSpeeds r) = true).
    { unfold prices_differ, newSpeeds. simpl. rewrite Hdiff. apply orb_true_r. }
    unfold optimize. destruct (newSpeeds r) as [[[c1 c2] c3] c4] eqn:Hnew.
    rewrite Hch. reflexivity. }
  rewrite Hs3. destruct (refreshed_fields r (newSpeeds r) s2) as (Rt & _ & _ & Rc).
  split; [exact Rt |]. rewrite Rc, Hcb2. lia.
Qed.

Lemma optimization_switch_shows_at_next_answer_witness :
  _speeds (after (estimateGasCost_callback example_response "success")
             (after (optimized false)
                (after (estimateGasCost_callback example_response "success")
                   (started 7%nat))))
  = table_of (newSpeeds example_response).
Proof.
  apply (optimization_switch_shows_at_next_answer (started 7%nat) example_response 7%nat
           {| gwei := num 1; wait := Fin (71 # 10) |}
           {| gwei := num 5; wait := Fin (7 # 2) |}
           {| gwei := num 10; wait := Fin (1 # 2) |}
           {| gwei := num 20; wait := Fin (1 # 2) |}); reflexivity.
Defined.

(** ** The five-slot variant *)

Lemma five_slot_setSpeed_num (z : Z) (s : FiveSlot.state) :
  FiveSlot.setSpeed (num z) s =
    if is_tier (num z)
    then (true,
          let s' := FiveSlot.set_currentSpeed (num z) s in
          if FiveSlot._suppressLogs s then s'
          else FiveSlot.add_effect (ConsoleLog (MsgDefaultSpeedSet (num z))) s')
    else (false, s).
Proof.
  unfold FiveSlot.setSpeed. rewrite is_tier_num. unfold num_gtb.
  rewrite !num_ltb_num.
  destruct (Z.ltb_spec z 1), (Z.ltb_spec 4 z), (Z.leb_spec 1 z), (Z.leb_spec z 4);
    simpl; try lia; try reflexivity.
  cbv [mbind FiveSlot.L_bind FiveSlot.modify FiveSlot.get_state FiveSlot.log
       FiveSlot.perform FiveSlot.skip mret FiveSlot.L_ret].
  simpl. destruct (FiveSlot._suppressLogs s); reflexivity.
Qed.

Lemma five_slot_nextSpeed_on_tier (k : Z) (s : FiveSlot.state) :
  FiveSlot._currentSpeed s = num k → 1 <= k <= 4 →
  (FiveSlot.nextSpeed s).1 = num (k mod 4 + 1) ∧
  FiveSlot._currentSpeed (FiveSlot.nextSpeed s).2 = num (k mod 4 + 1).
Proof.
  intros Hk Hrange. unfold FiveSlot.nextSpeed.
  cbv [mbind FiveSlot.L_bind FiveSlot.get_state]. rewrite Hk.
  assert (k = 1 ∨ k = 2 ∨ k = 3 ∨ k = 4) as [-> | [-> | [-> | ->]]] by lia.
  - replace ((num 1 + num 1) mod num 5)%num with (num 2) by reflexivity.
    rewrite num_eqb_num. simpl Z.eqb. cbv iota. rewrite five_slot_setSpeed_num.
    simpl. destruct (FiveSlot._suppressLogs s); split; reflexivity.
  - replace ((num 2 + num 1) mod num 5)%num with (num 3) by reflexivity.
    rewrite num_eqb_num. simpl Z.eqb. cbv iota. rewrite five_slot_setSpeed_num.
    simpl. destruct (FiveSlot._suppressLogs s); split; reflexivity.
  - replace ((num 3 + num 1) mod num 5)%num with (num 4) by reflexivity.
    rewrite num_eqb_num. simpl Z.eqb. cbv iota. rewrite five_slot_setSpeed_num.
    simpl. destruct (FiveSlot._suppressLogs s); split; reflexivity.
  - replace ((num 4 + num 1) mod num 5)%num with (num 0) by reflexivity.
    rewrite num_eqb_num. simpl Z.eqb. cbv iota. rewrite five_slot_setSpeed_num.
    simpl. destruct (FiveSlot._suppressLogs s); split; reflexivity.
Qed.

(** X11: in the five-slot variant [nextSpeed] does cycle: from a speed
    [k] among 1, 2, 3, 4 it returns the next one, 1 after 4, and [n]
    calls in a row lead to the speed [n] places further round the
    cycle. *)
Theorem five_slot_nextSpeed_cycles (n : nat) (k : Z) (s : FiveSlot.state) :
  FiveSlot._currentSpeed s = num k → 1 <= k <= 4 →
  (FiveSlot.nextSpeed s).1 = num (k mod 4 + 1) ∧
  FiveSlot._currentSpeed (FiveSlot.nextSpeed_times n s)
    = num ((k - 1 + Z.of_nat n) mod 4 + 1).
Proof.
  intros Hk Hrange. split; [apply five_slot_nextSpeed_on_tier; assumption |].
  revert k s Hk Hrange. induction n as [| n IH]; intros k s Hk Hrange.
  - simpl. rewrite Hk. f_equal.
    assert (k = 1 ∨ k = 2 ∨ k = 3 ∨ k = 4) as [-> | [-> | [-> | ->]]] by lia;
      reflexivity.
  - cbn [FiveSlot.nextSpeed_times].
    destruct (five_slot_nextSpeed_on_tier k s Hk Hrange) as [_ Hnext].
    rewrite (IH (k mod 4 + 1) _ Hnext) by
      (assert (0 <= k mod 4 < 4) by (apply Z.mod_pos_bound; lia); lia).
    f_equal. f_equal.
    replace (k mod 4 + 1 - 1 + Z.of_nat n) with (k mod 4 + Z.of_nat n) by lia.
    replace (k - 1 + Z.of_nat (S n)) with (k + Z.of_nat n) by lia.
    apply Z.add_mod_idemp_l. lia.
Qed.

Lemma five_slot_nextSpeed_cycles_witness :
  FiveSlot._currentSpeed (FiveSlot.nextSpeed_times 6 FiveSlot.initial_state) = num 4.
Proof.
  apply (five_slot_nextSpeed_cycles 6 2 FiveSlot.initial_state); [reflexivity | lia].
Defined.

Lemma price_rounded_up (q : Q) :
  ∃ n : Z, num_ceil (Fin q / num 10)%num = num n ∧
           (inject_Z (10 * (n - 1)) < q)%Q ∧ (q <= inject_Z (10 * n))%Q.
Proof.
  unfold num_div, num. simpl Qis_zero. cbv iota. unfold num_ceil.
  exists (Qceiling (Qred (q / inject_Z 10))). split; [reflexivity |].
  assert (Hx : Qred (q / inject_Z 10) == q / inject_Z 10) by apply Qred_correct.
  set (x := Qred (q / inject_Z 10)) in *.
  pose proof (Qle_ceiling x) as Hle. pose proof (Qceiling_lt x) as Hlt.
  assert (Hq : q == x * inject_Z 10).
  { rewrite Hx. field. }
  assert (Hpred : inject_Z (Qceiling x - 1) == inject_Z (Qceiling x) - 1).
  { unfold Z.sub. rewrite inject_Z_plus, inject_Z_opp. reflexivity. }
  rewrite !inject_Z_mult. rewrite Hpred in *.
  change (inject_Z 10) with 10%Q in *.
  split; lra.
Qed.

Lemma array_get_num {A : Type} (l : list (option A)) (z : Z) :
  0 <= z → array_get l (num z) = mjoin (l !! Z.to_nat z).
Proof. intros Hz. unfold array_get. rewrite array_index_num by lia. reflexivity. Qed.

Lemma five_slot_onGasPricesReceived (r : response) (cur : number)
    (cb : option callback) (sup : bool) (eff : list event)
    (p0 p1 p2 p3 p4 : number) :
  let c1 := num_ceil (safeLow r / num 10)%num in
  let c2 := num_ceil (average r / num 10)%num in
  let c3 := num_ceil (fast r / num 10)%num in
  let c4 := num_ceil (fastest r / num 10)%num in
  let s := {| FiveSlot._speed := [Some p0; Some p1; Some p2; Some p3; Some p4];
              FiveSlot._currentSpeed := cur;
              FiveSlot._onNewSpeedCallback := cb;
              FiveSlot._suppressLogs := sup;
              FiveSlot.effects := eff |} in
  FiveSlot.onGasPricesReceived r s =
    if (p1 != c1)%num || (p2 != c2)%num || (p3 != c3)%num || (p4 != c4)%num
    then (tt,
          {| FiveSlot._speed := [Some p0; Some c1; Some c2; Some c3; Some c4];
             FiveSlot._currentSpeed := cur;
             FiveSlot._onNewSpeedCallback := cb;
             FiveSlot._suppressLogs := sup;
             FiveSlot.effects :=
               (eff ++ (if sup then [] else [ConsoleLog (MsgNewSpeedLimits c1 c2 c3 c4)]))
               ++ (match cb with Some f => [Call f []] | None => [] end) |})
    else (tt, s).
Proof.
  intros c1 c2 c3 c4 s. unfold FiveSlot.onGasPricesReceived.
  cbv [mbind FiveSlot.L_bind FiveSlot.get_state]. fold c1 c2 c3 c4.
  unfold s at 1 2 3 4. cbn [FiveSlot._speed].
  rewrite !array_get_num by lia.
  change (mjoin ([Some p0; Some p1; Some p2; Some p3; Some p4] !! Z.to_nat 1))
    with (Some p1).
  change (mjoin ([Some p0; Some p1; Some p2; Some p3; Some p4] !! Z.to_nat 2))
    with (Some p2).
  change (mjoin ([Some p0; Some p1; Some p2; Some p3; Some p4] !! Z.to_nat 3))
    with (Some p3).
  change (mjoin ([Some p0; Some p1; Some p2; Some p3; Some p4] !! Z.to_nat 4))
    with (Some p4).
  unfold value_neb.
  destruct ((p1 != c1)%num || (p2 != c2)%num || (p3 != c3)%num || (p4 != c4)%num);
    [| reflexivity].
  cbv [FiveSlot.log FiveSlot.get_state mbind FiveSlot.L_bind FiveSlot.modify
       FiveSlot.perform FiveSlot.skip mret FiveSlot.L_ret]. unfold s.
  destruct sup, cb; cbn; rewrite ?app_nil_r; reflexivity.
Qed.



(** A truthy number that is an index below 5 is one of 1, 2, 3, 4. *)
Lemma array_index_tier (t : number) (i : nat) :
  array_index t = Some i → (i < 5)%nat → truthy t = true → is_tier t = true.
Proof.
  destruct t as [| a | q]; try discriminate.
  unfold array_index. set (r := Qred q).
  destruct (Pos.eqb_spec (Qden r) 1) as [Hden |]; [| discriminate].
  destruct (Z.leb_spec 0 (Qnum r)) as [Hnum |]; [| discriminate].
  simpl. intros [= <-] Hi Htruthy.
  assert (Hr : r == q) by apply Qred_correct.
  assert (Hz : r == inject_Z (Qnum r)).
  { unfold Qeq, inject_Z. simpl. rewrite Hden. lia. }
  unfold is_tier, num_eqb, num.
  assert (Hcases : Qnum r = 0 ∨ Qnum r = 1 ∨ Qnum r = 2 ∨ Qnum r = 3 ∨ Qnum r = 4)
    by lia.
  destruct Hcases as [H | [H | [H | [H | H]]]]; rewrite H in Hz.
  - exfalso. unfold Qis_zero in Htruthy.
    assert (Hq0 : Qnum q = 0).
    { rewrite Hz in Hr. unfold Qeq in Hr. simpl in Hr. lia. }
    rewrite Hq0 in Htruthy. discriminate.
  - assert (E : Qeq_bool q (inject_Z 1) = true)
      by (apply Qeq_bool_iff; rewrite <- Hr; exact Hz).
    rewrite E. reflexivity.
  - assert (E : Qeq_bool q (inject_Z 2) = true)
      by (apply Qeq_bool_iff; rewrite <- Hr; exact Hz).
    rewrite E, ?orb_true_r. reflexivity.
  - assert (E : Qeq_bool q (inject_Z 3) = true)
      by (apply Qeq_bool_iff; rewrite <- Hr; exact Hz).
    rewrite E, ?orb_true_r. reflexivity.
  - assert (E : Qeq_bool q (inject_Z 4) = true)
      by (apply Qeq_bool_iff; rewrite <- Hr; exact Hz).
    rewrite E, ?orb_true_r. reflexivity.
Qed.

(** X13: in the five-slot variant a speed given explicitly that is truthy
    and none of 1, 2, 3, 4 raises nothing: [idealGasPriceInGwei] returns
    [undefined] and [idealGasPrice] returns NaN, the state untouched. *)
Theorem five_slot_out_of_range_speed (t : number) (s : FiveSlot.state) :
  length (FiveSlot._speed s) = 5%nat →
  truthy t = true →
  is_tier t = false →
  FiveSlot.idealGasPriceInGwei (Some t) s = (None, s) ∧
  FiveSlot.idealGasPrice (Some t) s = (NaN, s).
Proof.
  intros Hlen Htruthy Htier.
  assert (Hget : array_get (FiveSlot._speed s) t = None).
  { unfold array_get. destruct (array_index t) as [i |] eqn:Hi; [| reflexivity].
    destruct (Nat.lt_ge_cases i 5) as [Hlt | Hge].
    - rewrite (array_index_tier t i Hi Hlt Htruthy) in Htier. discriminate.
    - rewrite (proj2 (lookup_ge_None (FiveSlot._speed s) i)) by lia. reflexivity. }
  unfold FiveSlot.idealGasPriceInGwei, FiveSlot.idealGasPrice.
  cbv [mbind FiveSlot.L_bind FiveSlot.get_state mret FiveSlot.L_ret].
  rewrite Htruthy, Hget. simpl. split; reflexivity.
Qed.

Lemma five_slot_out_of_range_speed_witness :
  FiveSlot.idealGasPrice (Some (num 5)) FiveSlot.initial_state
    = (NaN, FiveSlot.initial_state) ∧
  FiveSlot.idealGasPriceInGwei (Some (Fin (5 # 2))) FiveSlot.initial_state
    = (None, FiveSlot.initial_state).
Proof.
  split.
  - apply (five_slot_out_of_range_speed (num 5) FiveSlot.initial_state); reflexivity.
  - apply (five_slot_out_of_range_speed (Fin (5 # 2)) FiveSlot.initial_state); reflexivity.
Defined.
